(** * Orchestration of a transformation job (startTransformByQ.ts)

    A shallow embedding of
    [packages/core/src/codewhisperer/commands/startTransformByQ.ts].

    - The process-wide objects [transformByQState] and [jobPlanProgress], the
      context keys, the interval timers and the telemetry metadata are the
      fields of an explicit [World].
    - Every [async] function is a computation in a state-and-exception monad
      over that world ([Async]); [try]/[catch]/[finally] are combinators.
    - The collaborators (remote service, local tools, file system, operator)
      are an oracle, [Env]. A call that the source guards with [try]/[catch]
      somewhere may be rejected; the editor commands, [setContext] and the
      file removals always return. Answers to repeated calls are indexed by
      the number of earlier calls of the same kind.
    - Every externally visible action is recorded in a trace of [Event]s,
      newest first.
    - The operator's stop command ([stopTransformByQ]) may run while the run
      is suspended in packaging, upload, start, the two cooldowns, the
      download of the build logs and the polls ([AwaitPoint]).
    - A call started with [void] is queued and run by [eventLoop] after the
      task that started it: its first step is a remote poll, the remaining
      steps of the caller are local. *)

From Stdlib Require Import String Ascii List Bool Arith Lia.
From stdpp Require Import base option gmap strings.

Local Open Scope string_scope.

(** ** JavaScript values used by the file *)

Module Js.

(** [String.prototype.toLowerCase], on the ASCII letters. *)
Definition lowerAscii (c : ascii) : ascii :=
  let n := nat_of_ascii c in
  if ((65 <=? n)%nat && (n <=? 90)%nat)%bool then ascii_of_nat (n + 32) else c.

Fixpoint toLowerCase (s : string) : string :=
  match s with
  | EmptyString => EmptyString
  | String c rest => String (lowerAscii c) (toLowerCase rest)
  end.

(** [String.prototype.includes]. *)
Fixpoint includes (needle s : string) : bool :=
  String.prefix needle s ||
  match s with
  | EmptyString => false
  | String _ rest => includes needle rest
  end.

(** Truthiness of a [string | undefined]: [undefined] and [''] are falsy. *)
Definition truthy (v : option string) : bool :=
  match v with
  | None | Some EmptyString => false
  | Some _ => true
  end.

(** [v ?? d]: only [undefined] is replaced. *)
Definition nullish (v : option string) (d : string) : string :=
  match v with
  | None => d
  | Some s => s
  end.

(** A template literal [`${a} ${b}`]. *)
Definition template2 (a b : string) : string := a ++ " " ++ b.

End Js.

(** ** models/model.ts: the enumerations *)

Module StepProgress.
Inductive t := NotStarted | Pending | Succeeded | Failed.
#[global] Instance eq_dec : EqDecision t.
Proof. solve_decision. Defined.
End StepProgress.

Inductive TransformByQStatus :=
| NOT_STARTED | RUNNING | PAUSED | SUCCEEDED | PARTIALLY_SUCCEEDED | FAILED | CANCELLED.

#[global] Instance TransformByQStatus_eq_dec : EqDecision TransformByQStatus.
Proof. solve_decision. Defined.

Inductive TransformationType := LANGUAGE_UPGRADE | SQL_CONVERSION.

#[global] Instance TransformationType_eq_dec : EqDecision TransformationType.
Proof. solve_decision. Defined.

Inductive JDKVersion := JDK8 | JDK11 | JDK17 | JDK21 | UNSUPPORTED.

#[global] Instance JDKVersion_eq_dec : EqDecision JDKVersion.
Proof. solve_decision. Defined.

Inductive MetadataResult := Pass | Fail.

(** ** amazonqGumby/errors and the other exceptions that travel through the file *)

Inductive Error :=
| ModuleUploadError
| JobStartError
| PollJobError
| TransformationPreBuildError
| AlternateDependencyVersionsNotFoundError
| TransformByQStoppedError
| JsError (message : string)        (* [new Error(message)] raised in this file *)
| ExternalError (message : string). (* raised inside a collaborator *)

Definition errorMessage (e : Error) : string :=
  match e with
  | ModuleUploadError => "ModuleUploadError"
  | JobStartError => "JobStartError"
  | PollJobError => "PollJobError"
  | TransformationPreBuildError => "TransformationPreBuildError"
  | AlternateDependencyVersionsNotFoundError => "AlternateDependencyVersionsNotFoundError"
  | TransformByQStoppedError => "TransformByQStoppedError"
  | JsError m => m
  | ExternalError m => m
  end.

(** ** models/constants.ts

    The texts of [CodeWhispererConstants] are not part of this file; the
    development is parametric in them. *)

Record Constants := {
  jobStartedNotification : string;
  failedToUploadProjectNotification : string;
  failedToUploadProjectChatMessage : string;
  failedToStartJobNotification : string;
  failedToStartJobChatMessage : string;
  tooManyJobsNotification : string;
  tooManyJobsChatMessage : string;
  linesOfCodeLimitBreachedNotification : string;
  linesOfCodeLimitBreachedChatMessage : string;
  failedToCompleteJobNotification : string;
  failedToCompleteJobChatMessage : string;
  jobCompletedChatMessage : string;
  jobCompletedNotification : string;
  jobPartiallyCompletedChatMessage : string;
  jobPartiallyCompletedNotification : string;
  upgradeLibrariesMessage : string;
  jobCancelledNotification : string;
  errorStoppingJobNotification : string;
  dependencyNoAvailableVersions : string;
}.

(** ** transformByQState *)

(** Modelled from the spec: the class behind [transformByQState] is declared
    in [models/model.ts]. The record keeps the fields of the spec's JobState
    that this file reads or writes; the failure texts are [string | undefined]. *)
#[projections(primitive)]
Record TransformByQState := {
  status : TransformByQStatus;
  jobId : string;
  polledJobStatus : string;
  transformationType : TransformationType;
  sourceJDKVersion : option JDKVersion;
  targetJDKVersion : option JDKVersion;
  jobFailureErrorNotification : option string;
  jobFailureErrorChatMessage : option string;
  payloadFilePath : string;
  preBuildLogFilePath : string;
  intervalId : option nat;
  hasSeenTransforming : bool;
}.

Module JobState.

(** Modelled from the spec: the setters and the tests of the class
    ([setToRunning], [isCancelled], ...) are declared in [models/model.ts];
    each setter assigns the field it names and each test compares the status. *)

Definition setStatus (v : TransformByQStatus) (s : TransformByQState) :=
  {| status := v; jobId := jobId s; polledJobStatus := polledJobStatus s;
     transformationType := transformationType s;
     sourceJDKVersion := sourceJDKVersion s; targetJDKVersion := targetJDKVersion s;
     jobFailureErrorNotification := jobFailureErrorNotification s;
     jobFailureErrorChatMessage := jobFailureErrorChatMessage s;
     payloadFilePath := payloadFilePath s; preBuildLogFilePath := preBuildLogFilePath s;
     intervalId := intervalId s; hasSeenTransforming := hasSeenTransforming s |}.

Definition setJobId (v : string) (s : TransformByQState) :=
  {| status := status s; jobId := v; polledJobStatus := polledJobStatus s;
     transformationType := transformationType s;
     sourceJDKVersion := sourceJDKVersion s; targetJDKVersion := targetJDKVersion s;
     jobFailureErrorNotification := jobFailureErrorNotification s;
     jobFailureErrorChatMessage := jobFailureErrorChatMessage s;
     payloadFilePath := payloadFilePath s; preBuildLogFilePath := preBuildLogFilePath s;
     intervalId := intervalId s; hasSeenTransforming := hasSeenTransforming s |}.

Definition setPolledJobStatus (v : string) (s : TransformByQState) :=
  {| status := status s; jobId := jobId s; polledJobStatus := v;
     transformationType := transformationType s;
     sourceJDKVersion := sourceJDKVersion s; targetJDKVersion := targetJDKVersion s;
     jobFailureErrorNotification := jobFailureErrorNotification s;
     jobFailureErrorChatMessage := jobFailureErrorChatMessage s;
     payloadFilePath := payloadFilePath s; preBuildLogFilePath := preBuildLogFilePath s;
     intervalId := intervalId s; hasSeenTransforming := hasSeenTransforming s |}.

Definition setJobFailureErrorNotification (v : option string) (s : TransformByQState) :=
  {| status := status s; jobId := jobId s; polledJobStatus := polledJobStatus s;
     transformationType := transformationType s;
     sourceJDKVersion := sourceJDKVersion s; targetJDKVersion := targetJDKVersion s;
     jobFailureErrorNotification := v;
     jobFailureErrorChatMessage := jobFailureErrorChatMessage s;
     payloadFilePath := payloadFilePath s; preBuildLogFilePath := preBuildLogFilePath s;
     intervalId := intervalId s; hasSeenTransforming := hasSeenTransforming s |}.

Definition setJobFailureErrorChatMessage (v : option string) (s : TransformByQState) :=
  {| status := status s; jobId := jobId s; polledJobStatus := polledJobStatus s;
     transformationType := transformationType s;
     sourceJDKVersion := sourceJDKVersion s; targetJDKVersion := targetJDKVersion s;
     jobFailureErrorNotification := jobFailureErrorNotification s;
     jobFailureErrorChatMessage := v;
     payloadFilePath := payloadFilePath s; preBuildLogFilePath := preBuildLogFilePath s;
     intervalId := intervalId s; hasSeenTransforming := hasSeenTransforming s |}.

Definition setPayloadFilePath (v : string) (s : TransformByQState) :=
  {| status := status s; jobId := jobId s; polledJobStatus := polledJobStatus s;
     transformationType := transformationType s;
     sourceJDKVersion := sourceJDKVersion s; targetJDKVersion := targetJDKVersion s;
     jobFailureErrorNotification := jobFailureErrorNotification s;
     jobFailureErrorChatMessage := jobFailureErrorChatMessage s;
     payloadFilePath := v; preBuildLogFilePath := preBuildLogFilePath s;
     intervalId := intervalId s; hasSeenTransforming := hasSeenTransforming s |}.

Definition setPreBuildLogFilePath (v : string) (s : TransformByQState) :=
  {| status := status s; jobId := jobId s; polledJobStatus := polledJobStatus s;
     transformationType := transformationType s;
     sourceJDKVersion := sourceJDKVersion s; targetJDKVersion := targetJDKVersion s;
     jobFailureErrorNotification := jobFailureErrorNotification s;
     jobFailureErrorChatMessage := jobFailureErrorChatMessage s;
     payloadFilePath := payloadFilePath s; preBuildLogFilePath := v;
     intervalId := intervalId s; hasSeenTransforming := hasSeenTransforming s |}.

Definition setIntervalId (v : option nat) (s : TransformByQState) :=
  {| status := status s; jobId := jobId s; polledJobStatus := polledJobStatus s;
     transformationType := transformationType s;
     sourceJDKVersion := sourceJDKVersion s; targetJDKVersion := targetJDKVersion s;
     jobFailureErrorNotification := jobFailureErrorNotification s;
     jobFailureErrorChatMessage := jobFailureErrorChatMessage s;
     payloadFilePath := payloadFilePath s; preBuildLogFilePath := preBuildLogFilePath s;
     intervalId := v; hasSeenTransforming := hasSeenTransforming s |}.

Definition setHasSeenTransforming (v : bool) (s : TransformByQState) :=
  {| status := status s; jobId := jobId s; polledJobStatus := polledJobStatus s;
     transformationType := transformationType s;
     sourceJDKVersion := sourceJDKVersion s; targetJDKVersion := targetJDKVersion s;
     jobFailureErrorNotification := jobFailureErrorNotification s;
     jobFailureErrorChatMessage := jobFailureErrorChatMessage s;
     payloadFilePath := payloadFilePath s; preBuildLogFilePath := preBuildLogFilePath s;
     intervalId := intervalId s; hasSeenTransforming := v |}.

Definition setToRunning := setStatus RUNNING.
Definition setToSucceeded := setStatus SUCCEEDED.
Definition setToPartiallySucceeded := setStatus PARTIALLY_SUCCEEDED.
Definition setToFailed := setStatus FAILED.
Definition setToCancelled := setStatus CANCELLED.

Definition isRunning (s : TransformByQState) : bool := bool_decide (status s = RUNNING).
Definition isCancelled (s : TransformByQState) : bool := bool_decide (status s = CANCELLED).
Definition isSucceeded (s : TransformByQState) : bool := bool_decide (status s = SUCCEEDED).
Definition isPartiallySucceeded (s : TransformByQState) : bool :=
  bool_decide (status s = PARTIALLY_SUCCEEDED).

(** Modelled from the spec: [setJobDefaults] is declared in
    [models/model.ts]; it "resets JobState to its idle defaults". The job
    id and the polled status are reset by [setTransformationToRunningState]
    at the start of the next run and are left alone here. *)
Definition setJobDefaults (s : TransformByQState) : TransformByQState :=
  {| status := NOT_STARTED; jobId := jobId s; polledJobStatus := polledJobStatus s;
     transformationType := transformationType s;
     sourceJDKVersion := None; targetJDKVersion := None;
     jobFailureErrorNotification := None;
     jobFailureErrorChatMessage := None;
     payloadFilePath := ""; preBuildLogFilePath := preBuildLogFilePath s;
     intervalId := None; hasSeenTransforming := hasSeenTransforming s |}.

End JobState.

(** ** What the outside world sees and answers *)

(** The two accepted-state sets handed to [pollTransformationJob]. *)
Inductive PollTarget := validStatesForPlanGenerated | validStatesForCheckingDownloadUrl.

#[global] Instance PollTarget_eq_dec : EqDecision PollTarget.
Proof. solve_decision. Defined.

(** [transformByQState.getChatControllers()?.<emitter>.fire(...)]. *)
Inductive ChatEvent :=
| errorThrown (error : Error)
| transformationFinished (message : option string)
| humanInTheLoopStartIntervention
| humanInTheLoopPromptUserForDependency
| humanInTheLoopSelectionUploaded.

Inductive TelemetryEvent :=
| codeTransform_totalRunTime
    (codeTransformResultStatusMessage : TransformByQStatus) (reason : string)
    (result : MetadataResult)
| codeTransform_humanInTheLoop (codeTransformJobId : string) (result : MetadataResult)
| codeTransform_jobIsCancelledByUser (codeTransformJobId : string).

Inductive Event :=
| ExecuteCommand (command : string)
| ShowInformationMessage (message : string)
| ShowErrorMessage (message : string)
| SetInterval (id : nat)
| ClearInterval (id : option nat)
| UpdateJobHistory
| Sleep (ms : nat)
| ZipCode
| UploadPayload (payloadFilePath : string)
| StartJob (uploadId : string)
| StopJob (jobId : string)
| PollTransformationJob (jobId : string) (validStates : PollTarget)
| DownloadAndExtractResultArchive (jobId : string) (dir : string)
| ResumeTransformationJob (jobId : string) (userActionStatus : string)
| GetTransformationSteps (jobId : string)
| DownloadHilResultArchive (jobId : string)
| PreparePomFileCopy
| RunMavenDependencyUpdateCommands
| ApplySelectedDependency (version : string)
| PrepareProjectDependencies
| CleanUpArtifacts
| RmSync (path : string)
| Chat (e : ChatEvent)
| Telemetry (e : TelemetryEvent)
| UnhandledRejection (error : Error).

(** A promise returned by a collaborator settles one way or the other. *)
Inductive Response (A : Type) :=
| Resolved (a : A)
| Rejected (message : string).
Arguments Resolved {A} a.
Arguments Rejected {A} message.

(** The suspension points of a run at which the operator's stop command
    ([stopTransformByQ]) is allowed to run in this model. *)
Inductive AwaitPoint :=
| ZippingCode
| UploadingPayload
| UploadCooldown        (* [sleep(2000)] of preTransformationUploadCode *)
| StartingJob
| StartCooldown         (* [sleep(5000)] of startTransformationJob *)
| DownloadingBuildLogs
| Polling (validStates : PollTarget) (n : nat).

(** How far the [n]-th human-in-the-loop preparation gets. *)
Inductive HilPreparation :=
| PlanUnavailable (message : string)      (* getTransformationSteps rejects *)
| DownloadStepMissing                     (* transformationStep or progressUpdate undefined *)
| ArtifactMissing                         (* artifactId or artifactType undefined *)
| ArchiveUnavailable (message : string)   (* downloadHilResultArchive / manifest rejects *)
| PomCopyFailed (message : string)        (* createPomFileCopy .. getCodeIssueSnippetFromPom *)
| DependencyListingFailed (message : string) (* maven run, xml output or parsing rejects *)
| VersionsParsed (status : string).       (* parseVersionsListFromPomFile resolves *)

(** How far the [n]-th application of the operator's choice gets. *)
Inductive HilCompletion :=
| PomUpdateFailed (message : string)
| DependencyBuildFailed (message : string)
| DependencyUploadFailed (message : string)
| DependencyUploaded.

Record Env := {
  zipCodeResponse : Response string;             (* tempFilePath *)
  uploadPayloadResponse : Response string;       (* uploadId *)
  startJobResponse : Response string;            (* jobId *)
  pollResponse : PollTarget -> nat -> Response string;
  makeTemporaryToolkitFolderResponse : Response string;
  downloadAndExtractResultArchiveResponse : Response unit;
  existsSync : string -> bool;
  tmpdir : string;
  stopJobResponse : nat -> Response unit;
  resumeResponse : nat -> Response unit;
  hilPreparation : nat -> HilPreparation;
  hilCompletion : nat -> HilCompletion;
  operatorSelection : nat -> option (option string);
  operatorStops : AwaitPoint -> bool;
}.

(** A call that was started with [void f(...)] and runs on its own. *)
Inductive Task :=
| RetryLogic (jobId : string)
| FinishHumanInTheLoop (selectedDependency : option string).

#[projections(primitive)]
Record World := {
  transformByQState : TransformByQState;
  jobPlanProgress : gmap string StepProgress.t;
  context : gmap string bool;                   (* [setContext] keys *)
  timers : gset nat;                            (* live [setInterval] timers *)
  codeTransformMetaData : gmap string string;   (* CodeTransformTelemetryState *)
  detached : list Task;
  trace : list Event;                           (* newest event first *)
}.

Module W.

Definition setJob (v : TransformByQState) (w : World) : World :=
  {| transformByQState := v; jobPlanProgress := jobPlanProgress w; context := context w;
     timers := timers w; codeTransformMetaData := codeTransformMetaData w;
     detached := detached w; trace := trace w |}.

Definition setProgress (v : gmap string StepProgress.t) (w : World) : World :=
  {| transformByQState := transformByQState w; jobPlanProgress := v; context := context w;
     timers := timers w; codeTransformMetaData := codeTransformMetaData w;
     detached := detached w; trace := trace w |}.

Definition setContext (v : gmap string bool) (w : World) : World :=
  {| transformByQState := transformByQState w; jobPlanProgress := jobPlanProgress w;
     context := v; timers := timers w; codeTransformMetaData := codeTransformMetaData w;
     detached := detached w; trace := trace w |}.

Definition setTimers (v : gset nat) (w : World) : World :=
  {| transformByQState := transformByQState w; jobPlanProgress := jobPlanProgress w;
     context := context w; timers := v; codeTransformMetaData := codeTransformMetaData w;
     detached := detached w; trace := trace w |}.

Definition setMetaData (v : gmap string string) (w : World) : World :=
  {| transformByQState := transformByQState w; jobPlanProgress := jobPlanProgress w;
     context := context w; timers := timers w; codeTransformMetaData := v;
     detached := detached w; trace := trace w |}.

Definition setDetached (v : list Task) (w : World) : World :=
  {| transformByQState := transformByQState w; jobPlanProgress := jobPlanProgress w;
     context := context w; timers := timers w;
     codeTransformMetaData := codeTransformMetaData w;
     detached := v; trace := trace w |}.

Definition setTrace (v : list Event) (w : World) : World :=
  {| transformByQState := transformByQState w; jobPlanProgress := jobPlanProgress w;
     context := context w; timers := timers w;
     codeTransformMetaData := codeTransformMetaData w;
     detached := detached w; trace := v |}.

End W.

(** ** The monad of [async] functions *)

Inductive Outcome (A : Type) :=
| Returned (a : A)
| Thrown (e : Error).
Arguments Returned {A} a.
Arguments Thrown {A} e.

Definition Async (A : Type) : Type := World -> Outcome A * World.

#[global] Instance Async_ret : MRet Async := fun A a w => (Returned a, w).

#[global] Instance Async_bind : MBind Async := fun A B f m w =>
  match m w with
  | (Returned a, w') => f a w'
  | (Thrown e, w') => (Thrown e, w')
  end.

Definition throw {A} (e : Error) : Async A := fun w => (Thrown e, w).

(** [try { m } catch (e) { handler e }] *)
Definition tryCatch {A} (m : Async A) (handler : Error -> Async A) : Async A := fun w =>
  match m w with
  | (Returned a, w') => (Returned a, w')
  | (Thrown e, w') => handler e w'
  end.

(** [try { m } finally { finalizer }]: the finalizer runs on both exits and
    sees how [m] ended; an exception of the finalizer replaces the outcome. *)
Definition tryFinally {A} (m : Async A) (finalizer : Outcome A -> Async unit) : Async A :=
  fun w =>
    let (r, w') := m w in
    match finalizer r w' with
    | (Returned _, w'') => (r, w'')
    | (Thrown e, w'') => (Thrown e, w'')
    end.

Definition getWorld : Async World := fun w => (Returned w, w).
Definition getJob : Async TransformByQState := fun w => (Returned (transformByQState w), w).
Definition modifyJob (f : TransformByQState -> TransformByQState) : Async unit :=
  fun w => (Returned (), W.setJob (f (transformByQState w)) w).
Definition emit (e : Event) : Async unit :=
  fun w => (Returned (), W.setTrace (e :: trace w) w).

(** Number of earlier events of one kind: the index of the next oracle answer. *)
Fixpoint countEvents (p : Event -> bool) (tr : list Event) : nat :=
  match tr with
  | [] => 0
  | e :: rest => (if p e then 1 else 0) + countEvents p rest
  end.

Definition callsSoFar (p : Event -> bool) : Async nat :=
  fun w => (Returned (countEvents p (trace w)), w).

Definition settle {A} (r : Response A) : Async A :=
  match r with
  | Resolved a => mret a
  | Rejected message => throw (ExternalError message)
  end.

Definition isStopJob (e : Event) : bool :=
  match e with StopJob _ => true | _ => false end.
Definition isResume (e : Event) : bool :=
  match e with ResumeTransformationJob _ _ => true | _ => false end.
Definition isResumeWith (userActionStatus : string) (e : Event) : bool :=
  match e with
  | ResumeTransformationJob _ s => bool_decide (s = userActionStatus)
  | _ => false
  end.
Definition isPoll (validStates : PollTarget) (e : Event) : bool :=
  match e with
  | PollTransformationJob _ t => bool_decide (t = validStates)
  | _ => false
  end.
Definition isAnyPoll (e : Event) : bool :=
  match e with PollTransformationJob _ _ => true | _ => false end.
Definition isStartJob (e : Event) : bool :=
  match e with StartJob _ => true | _ => false end.
Definition isGetTransformationSteps (e : Event) : bool :=
  match e with GetTransformationSteps _ => true | _ => false end.
Definition isApplySelectedDependency (e : Event) : bool :=
  match e with ApplySelectedDependency _ => true | _ => false end.
Definition isPrompt (e : Event) : bool :=
  match e with Chat humanInTheLoopPromptUserForDependency => true | _ => false end.
Definition isClearInterval (e : Event) : bool :=
  match e with ClearInterval _ => true | _ => false end.

(** [path.join] of two segments. *)
Definition pathJoin (a b : string) : string := a ++ "/" ++ b.

(** ** The program *)

Section Program.

Variable K : Constants.
Variable env : Env.

(** *** Editor, timers, chat and telemetry *)

Definition executeCommand (command : string) : Async unit := emit (ExecuteCommand command).
Definition showInformationMessage (message : string) : Async unit :=
  emit (ShowInformationMessage message).
Definition showErrorMessage (message : string) : Async unit :=
  emit (ShowErrorMessage message).
Definition fire (e : ChatEvent) : Async unit := emit (Chat e).
Definition telemetryEmit (e : TelemetryEvent) : Async unit := emit (Telemetry e).

Definition setContext (key : string) (value : bool) : Async unit :=
  fun w => (Returned (), W.setContext (<[key := value]> (context w)) w).

Definition setInterval : Async nat := fun w =>
  let id := fresh (timers w) in
  (Returned id, W.setTrace (SetInterval id :: trace w) (W.setTimers ({[id]} ∪ timers w) w)).

Definition clearInterval (id : option nat) : Async unit := fun w =>
  (Returned (),
   W.setTrace (ClearInterval id :: trace w)
     (match id with
      | Some i => W.setTimers (timers w ∖ {[i]}) w
      | None => w
      end)).

Definition setProgress (step : string) (v : StepProgress.t) : Async unit :=
  fun w => (Returned (), W.setProgress (<[step := v]> (jobPlanProgress w)) w).

Definition setCodeTransformMetaDataField (field value : string) : Async unit :=
  fun w => (Returned (), W.setMetaData (<[field := value]> (codeTransformMetaData w)) w).

Definition resetCodeTransformMetaDataField : Async unit :=
  fun w => (Returned (), W.setMetaData ∅ w).

(** [void f(...)]: the call is started and not awaited; it runs to its end
    from the event loop, after the caller has gone on. *)
Definition spawn (t : Task) : Async unit :=
  fun w => (Returned (), W.setDetached (detached w ++ [t]) w).

(** *** The remote service (service/transformByQ/transformApiHandler) *)

(** Modelled from the spec: [throwIfCancelled] is declared in
    transformApiHandler; cancellation is "cooperative and polled
    ([throwIfCancelled]-style checks)". *)
Definition throwIfCancelled : Async unit :=
  s ← getJob;
  if JobState.isCancelled s then throw TransformByQStoppedError else mret ().

Definition stopJob (jobId : string) : Async unit :=
  n ← callsSoFar isStopJob;
  emit (StopJob jobId);;
  settle (stopJobResponse env n).

Definition resumeTransformationJob (jobId userActionStatus : string) : Async unit :=
  n ← callsSoFar isResume;
  emit (ResumeTransformationJob jobId userActionStatus);;
  settle (resumeResponse env n).

Definition stopTransformByQ (jobId : string) : Async unit :=
  telemetryEmit (codeTransform_jobIsCancelledByUser jobId);;
  s ← getJob;
  if JobState.isRunning s then
    modifyJob JobState.setToCancelled;;
    modifyJob (JobState.setPolledJobStatus "CANCELLED");;
    setContext "gumby.isStopButtonAvailable" false;;
    tryCatch
      (stopJob jobId;;
       showErrorMessage (jobCancelledNotification K))
      (fun err => showErrorMessage (errorStoppingJobNotification K))
  else mret ().

(** While the run is suspended at [pt] the operator may press stop; the
    stop command is given the job id stored in [transformByQState]. *)
Definition suspended (pt : AwaitPoint) : Async unit :=
  if operatorStops env pt then
    s ← getJob;
    stopTransformByQ (jobId s)
  else mret ().

(** [await call(...)] of a collaborator at suspension point [pt]. *)
Definition await {A} (pt : AwaitPoint) (call : Event) (r : Response A) : Async A :=
  emit call;;
  suspended pt;;
  settle r.

Definition sleep (ms : nat) (pt : option AwaitPoint) : Async unit :=
  emit (Sleep ms);;
  match pt with
  | Some p => suspended p
  | None => mret ()
  end.

Definition zipCode : Async string := await ZippingCode ZipCode (zipCodeResponse env).

Definition uploadPayload (payloadFilePath : string) : Async string :=
  await UploadingPayload (UploadPayload payloadFilePath) (uploadPayloadResponse env).

(** Modelled from the spec: [startJob] is declared in transformApiHandler;
    the job id is "empty until assigned by remote start", and the call site
    says "StartJob and store the returned jobId in TransformByQState": the
    returned id is stored on success. *)
Definition startJob (uploadId : string) : Async string :=
  jobId ← await StartingJob (StartJob uploadId) (startJobResponse env);
  modifyJob (JobState.setJobId jobId);;
  mret jobId.

Definition pollTransformationJob (jobId : string) (validStates : PollTarget) : Async string :=
  n ← callsSoFar (isPoll validStates);
  await (Polling validStates n) (PollTransformationJob jobId validStates)
    (pollResponse env validStates n).

Definition makeTemporaryToolkitFolder : Async string :=
  settle (makeTemporaryToolkitFolderResponse env).

Definition downloadAndExtractResultArchive (jobId dir : string) : Async unit :=
  await DownloadingBuildLogs (DownloadAndExtractResultArchive jobId dir)
    (downloadAndExtractResultArchiveResponse env).

(** *** startTransformByQ.ts *)

Definition getFeedbackCommentData (w : World) : string :=
  let jobId := jobId (transformByQState w) in
  "Q CodeTransformation jobId: " ++ (if bool_decide (jobId = "") then "none" else jobId).

Definition startInterval : Async unit :=
  intervalId ← setInterval;
  modifyJob (JobState.setIntervalId (Some intervalId)).

Definition setContextVariables : Async unit :=
  setContext "gumby.wasQCodeTransformationUsed" true;;
  setContext "gumby.isStopButtonAvailable" true;;
  setContext "gumby.isPlanAvailable" false;;
  setContext "gumby.isSummaryAvailable" false.

(** [resetPlanSteps], [resetSessionJobHistory] and the start time touch
    fields that nothing below reads; they are left out. *)
Definition setTransformationToRunningState : Async unit :=
  setContextVariables;;
  executeCommand "aws.amazonq.transformationHub.reviewChanges.reset";;
  modifyJob JobState.setToRunning;;
  setProgress "uploadCode" StepProgress.Pending;;
  setProgress "buildCode" StepProgress.Pending;;
  setProgress "generatePlan" StepProgress.Pending;;
  setProgress "transformCode" StepProgress.Pending;;
  modifyJob (JobState.setJobId "");;
  modifyJob (JobState.setPolledJobStatus "");;
  modifyJob (JobState.setHasSeenTransforming false);;
  executeCommand "workbench.view.extension.aws-codewhisperer-transformation-hub".

Definition transformationJobErrorHandler (error : Error) : Async unit :=
  s ← getJob;
  (if negb (JobState.isCancelled s) then
     stopJob (jobId s);;
     modifyJob JobState.setToFailed;;
     modifyJob (JobState.setPolledJobStatus "FAILED");;
     s ← getJob;
     let displayedErrorMessage :=
       Js.nullish (jobFailureErrorNotification s) (failedToCompleteJobNotification K) in
     modifyJob (JobState.setJobFailureErrorChatMessage
                  (Some (Js.nullish (jobFailureErrorChatMessage s)
                           (failedToCompleteJobChatMessage K))));;
     showErrorMessage displayedErrorMessage
   else
     modifyJob JobState.setToCancelled;;
     modifyJob (JobState.setPolledJobStatus "CANCELLED"));;
  fire (errorThrown error).

Definition preTransformationUploadCode : Async string :=
  executeCommand "aws.amazonq.transformationHub.focus";;
  showInformationMessage (jobStartedNotification K);;
  throwIfCancelled;;
  uploadId ← tryCatch
    (payloadFilePath ← zipCode;
     modifyJob (JobState.setPayloadFilePath payloadFilePath);;
     uploadPayload payloadFilePath)
    (fun err =>
       let errorMessage := errorMessage err in
       modifyJob (JobState.setJobFailureErrorNotification
                    (Some (Js.template2 (failedToUploadProjectNotification K) errorMessage)));;
       modifyJob (JobState.setJobFailureErrorChatMessage
                    (Some (Js.template2 (failedToUploadProjectChatMessage K) errorMessage)));;
       fire (errorThrown ModuleUploadError);;
       throw err);
  throwIfCancelled;;
  sleep 2000 (Some UploadCooldown);;
  mret uploadId.

Definition startTransformationJob (uploadId : string) : Async string :=
  jobId ← tryCatch
    (startJob uploadId)
    (fun error =>
       let errorMessage := Js.toLowerCase (errorMessage error) in
       (if Js.includes "too many active running jobs" errorMessage then
          modifyJob (JobState.setJobFailureErrorNotification
                       (Some (tooManyJobsNotification K)));;
          modifyJob (JobState.setJobFailureErrorChatMessage
                       (Some (tooManyJobsChatMessage K)))
        else if Js.includes "lines of code limit breached" errorMessage then
          modifyJob (JobState.setJobFailureErrorNotification
                       (Some (linesOfCodeLimitBreachedNotification K)));;
          modifyJob (JobState.setJobFailureErrorChatMessage
                       (Some (linesOfCodeLimitBreachedChatMessage K)))
        else
          modifyJob (JobState.setJobFailureErrorNotification
                       (Some (Js.template2 (failedToStartJobNotification K) errorMessage)));;
          modifyJob (JobState.setJobFailureErrorChatMessage
                       (Some (Js.template2 (failedToStartJobChatMessage K) errorMessage))));;
       throw JobStartError);
  sleep 5000 (Some StartCooldown);;
  throwIfCancelled;;
  mret jobId.

(** The two guarded writes shared by the polling functions and by
    [finalizeTransformationJob]:
    [if (!getX()) setX(failedToCompleteJob...)]. *)
Definition setGenericFailureUnlessSet : Async unit :=
  s ← getJob;
  (if negb (Js.truthy (jobFailureErrorNotification s)) then
     modifyJob (JobState.setJobFailureErrorNotification
                  (Some (failedToCompleteJobNotification K)))
   else mret ());;
  s ← getJob;
  (if negb (Js.truthy (jobFailureErrorChatMessage s)) then
     modifyJob (JobState.setJobFailureErrorChatMessage
                  (Some (failedToCompleteJobChatMessage K)))
   else mret ()).

Definition pollTransformationStatusUntilPlanReady (jobId : string) : Async unit :=
  tryCatch
    (pollTransformationJob jobId validStatesForPlanGenerated;; mret ())
    (fun error =>
       setGenericFailureUnlessSet;;
       pathToLog ← tryCatch
         (tempToolkitFolder ← makeTemporaryToolkitFolder;
          let tempBuildLogsDir := pathJoin tempToolkitFolder "q-transformation-build-logs" in
          downloadAndExtractResultArchive jobId tempBuildLogsDir;;
          let pathToLog := pathJoin tempBuildLogsDir "buildCommandOutput.log" in
          modifyJob (JobState.setPreBuildLogFilePath pathToLog);;
          mret pathToLog)
         (fun e =>
            modifyJob (JobState.setPreBuildLogFilePath "");;
            throw e);
       s ← getJob;
       if existsSync env pathToLog && negb (JobState.isCancelled s) then
         throw TransformationPreBuildError
       else
         modifyJob (JobState.setPreBuildLogFilePath "");;
         throw PollJobError);;
  s ← getJob;
  if bool_decide (transformationType s = SQL_CONVERSION) then
    mret ()
  else
    setProgress "generatePlan" StepProgress.Succeeded;;
    throwIfCancelled.

Definition pollTransformationStatusUntilComplete (jobId : string) : Async string :=
  tryCatch
    (pollTransformationJob jobId validStatesForCheckingDownloadUrl)
    (fun error =>
       setGenericFailureUnlessSet;;
       throw PollJobError).

Definition finalizeTransformationJob (status : string) : Async unit :=
  if negb (bool_decide (status = "COMPLETED") || bool_decide (status = "PARTIALLY_COMPLETED"))
  then
    setProgress "transformCode" StepProgress.Failed;;
    setGenericFailureUnlessSet;;
    throw (JsError "Job was not successful nor partially successful")
  else
    modifyJob JobState.setToSucceeded;;
    (if bool_decide (status = "PARTIALLY_COMPLETED") then
       modifyJob JobState.setToPartiallySucceeded
     else mret ());;
    executeCommand "aws.amazonq.transformationHub.reviewChanges.reveal";;
    setProgress "transformCode" StepProgress.Succeeded.

Definition finalizeTransformByQ (status : string) : Async unit :=
  tryCatch (finalizeTransformationJob status) transformationJobErrorHandler.

(** *** The human-in-the-loop branch *)

Definition cleanUpArtifacts : Async unit := emit CleanUpArtifacts.

Definition terminateHILEarly (jobID : string) : Async unit :=
  resumeTransformationJob jobID "REJECTED".

(** Modelled from the spec: the chat controller that receives the prompt is
    not part of this file; when the operator answers, it calls
    [finishHumanInTheLoop] with the selection
    ([submitUserDependencyChoice(version)]). *)
Definition promptUserForDependency : Async unit :=
  n ← callsSoFar isPrompt;
  fire humanInTheLoopPromptUserForDependency;;
  match operatorSelection env n with
  | Some selectedDependency => spawn (FinishHumanInTheLoop selectedDependency)
  | None => mret ()
  end.

(** The [try] block of [initiateHumanInTheLoopPrompt], steps 1 to 5. *)
Definition prepareHumanInTheLoopPrompt (jobId : string) : Async unit :=
  n ← callsSoFar isGetTransformationSteps;
  emit (GetTransformationSteps jobId);;
  match hilPreparation env n with
  | PlanUnavailable message => throw (ExternalError message)
  | DownloadStepMissing =>
      throw (JsError "Transformation step or progress update is undefined")
  | ArtifactMissing => throw (JsError "artifactId or artifactType is undefined")
  | ArchiveUnavailable message =>
      emit (DownloadHilResultArchive jobId);;
      throw (ExternalError message)
  | PomCopyFailed message =>
      emit (DownloadHilResultArchive jobId);;
      emit PreparePomFileCopy;;
      throw (ExternalError message)
  | DependencyListingFailed message =>
      emit (DownloadHilResultArchive jobId);;
      emit PreparePomFileCopy;;
      fire humanInTheLoopStartIntervention;;
      emit RunMavenDependencyUpdateCommands;;
      throw (ExternalError message)
  | VersionsParsed status =>
      emit (DownloadHilResultArchive jobId);;
      emit PreparePomFileCopy;;
      fire humanInTheLoopStartIntervention;;
      emit RunMavenDependencyUpdateCommands;;
      if bool_decide (status = dependencyNoAvailableVersions K) then
        let error := AlternateDependencyVersionsNotFoundError in
        fire (errorThrown error);;
        throw error
      else promptUserForDependency
  end.

Definition initiateHumanInTheLoopPrompt (jobId : string) : Async bool :=
  tryFinally
    (tryCatch
       (prepareHumanInTheLoopPrompt jobId;;
        mret false)
       (fun err =>
          tryFinally
            (terminateHILEarly jobId)
            (fun _ => fire (errorThrown err));;
          setCodeTransformMetaDataField "errorMessage" (errorMessage err);;
          cleanUpArtifacts;;
          mret true))
    (fun _ =>
       sleep 1000 None;;
       telemetryEmit (codeTransform_humanInTheLoop jobId Fail)).

(** The [try] block of [finishHumanInTheLoop], steps 6 and 7. *)
Definition applySelectedDependency (jobId selectedDependency : string) : Async unit :=
  setCodeTransformMetaDataField "dependencyVersionSelected" selectedDependency;;
  n ← callsSoFar isApplySelectedDependency;
  emit (ApplySelectedDependency selectedDependency);;
  match hilCompletion env n with
  | PomUpdateFailed message => throw (ExternalError message)
  | DependencyBuildFailed message =>
      emit PrepareProjectDependencies;;
      throw (ExternalError message)
  | DependencyUploadFailed message =>
      emit PrepareProjectDependencies;;
      emit ZipCode;;
      throw (ExternalError message)
  | DependencyUploaded =>
      emit PrepareProjectDependencies;;
      emit ZipCode;;
      emit (UploadPayload "Dependencies")
  end.

(** [successfulFeedbackLoop] and [hilResult] are locals that the [catch]
    block overwrites before anything in it can throw: the [finally] block
    sees [Pass] exactly when the [try] block ran to its end. *)
Definition finishHumanInTheLoop (selectedDependency : option string) : Async bool :=
  s ← getJob;
  let jobId := jobId s in
  tryFinally
    (tryCatch
       (match selectedDependency with
        | None | Some EmptyString => throw (JsError "No dependency selected")
        | Some getUserInputValue =>
            applySelectedDependency jobId getUserInputValue;;
            fire humanInTheLoopSelectionUploaded;;
            resumeTransformationJob jobId "COMPLETED";;
            spawn (RetryLogic jobId);;
            mret true
        end)
       (fun err =>
          setCodeTransformMetaDataField "errorMessage" (errorMessage err);;
          terminateHILEarly jobId;;
          spawn (RetryLogic jobId);;
          mret false))
    (fun r =>
       let hilResult := match r with Returned true => Pass | _ => Fail end in
       telemetryEmit (codeTransform_humanInTheLoop jobId hilResult);;
       cleanUpArtifacts).

Definition humanInTheLoopRetryLogic (jobId : string) : Async unit :=
  tryCatch
    (status ← pollTransformationStatusUntilComplete jobId;
     if bool_decide (status = "PAUSED") then
       hilStatusFailure ← initiateHumanInTheLoopPrompt jobId;
       if hilStatusFailure : bool then spawn (RetryLogic jobId) else mret ()
     else finalizeTransformByQ status)
    (fun error =>
       finalizeTransformByQ "FAILED";;
       throw error).

(** *** End of the run *)

(** [chatMessage += text] on a [string | undefined]. *)
Definition appendTo (chatMessage : option string) (text : string) : option string :=
  Some (match chatMessage with
        | None => "undefined" ++ text
        | Some m => m ++ text
        end).

Definition failUnlessSucceeded (step : string) : Async unit :=
  w ← getWorld;
  if bool_decide (jobPlanProgress w !! step ≠ Some StepProgress.Succeeded) then
    setProgress step StepProgress.Failed
  else mret ().

Definition postTransformationJob : Async unit :=
  emit UpdateJobHistory;;
  failUnlessSucceeded "uploadCode";;
  failUnlessSucceeded "buildCode";;
  failUnlessSucceeded "generatePlan";;
  failUnlessSucceeded "transformCode";;
  s ← getJob;
  let upgraded := bool_decide (sourceJDKVersion s ≠ targetJDKVersion s) in
  let chatMessage :=
    if JobState.isSucceeded s then Some (jobCompletedChatMessage K)
    else if JobState.isPartiallySucceeded s then Some (jobPartiallyCompletedChatMessage K)
    else jobFailureErrorChatMessage s in
  let chatMessage :=
    if upgraded then appendTo chatMessage (upgradeLibrariesMessage K) else chatMessage in
  fire (transformationFinished chatMessage);;
  telemetryEmit
    (codeTransform_totalRunTime (status s) (polledJobStatus s)
       (if JobState.isSucceeded s || JobState.isPartiallySucceeded s then Pass else Fail));;
  (if JobState.isSucceeded s then
     showInformationMessage
       (jobCompletedNotification K ++ (if upgraded then upgradeLibrariesMessage K else ""))
   else if JobState.isPartiallySucceeded s then
     showInformationMessage
       (jobPartiallyCompletedNotification K
          ++ (if upgraded then upgradeLibrariesMessage K else ""))
   else mret ());;
  (if bool_decide (payloadFilePath s ≠ "") then emit (RmSync (payloadFilePath s))
   else mret ());;
  (let logFilePath := pathJoin (tmpdir env) "build-logs.txt" in
   if existsSync env logFilePath then emit (RmSync logFilePath) else mret ());;
  (if JobState.isSucceeded s || JobState.isPartiallySucceeded s then
     executeCommand "aws.amazonq.transformationHub.reviewChanges.startReview"
   else mret ()).

Definition cleanupTransformationJob : Async unit :=
  s ← getJob;
  clearInterval (intervalId s);;
  modifyJob JobState.setJobDefaults;;
  setContext "gumby.isStopButtonAvailable" false;;
  executeCommand "aws.amazonq.showPlanProgressInHub";;
  resetCodeTransformMetaDataField.

(** The [try] block of [startTransformByQ]. *)
Definition runStages : Async unit :=
  startInterval;;
  uploadId ← preTransformationUploadCode;
  jobId ← startTransformationJob uploadId;
  pollTransformationStatusUntilPlanReady jobId;;
  humanInTheLoopRetryLogic jobId.

Definition startTransformByQ : Async unit :=
  setTransformationToRunningState;;
  tryFinally
    (tryCatch runStages transformationJobErrorHandler)
    (fun _ =>
       postTransformationJob;;
       cleanupTransformationJob).

(** *** The event loop

    Calls started with [void] and the operator's answers run one after the
    other, each to its end, once the task that started them has finished;
    an exception that leaves such a call is an unhandled rejection. *)

Definition runTask (t : Task) : Async unit :=
  match t with
  | RetryLogic jobId => humanInTheLoopRetryLogic jobId
  | FinishHumanInTheLoop selectedDependency =>
      finishHumanInTheLoop selectedDependency;; mret ()
  end.

Fixpoint eventLoop (fuel : nat) (w : World) : World :=
  match fuel with
  | 0 => w
  | S fuel' =>
      match detached w with
      | [] => w
      | t :: rest =>
          match runTask t (W.setDetached rest w) with
          | (Returned _, w') => eventLoop fuel' w'
          | (Thrown e, w') =>
              eventLoop fuel' (W.setTrace (UnhandledRejection e :: trace w') w')
          end
      end
  end.

(** A whole session: the run, then whatever it left running. *)
Definition session (fuel : nat) (w : World) : World :=
  eventLoop fuel (snd (startTransformByQ w)).

End Program.

(** ** Observations on a world *)

Definition planSteps : list string :=
  ["uploadCode"; "buildCode"; "generatePlan"; "transformCode"].

(** How often [cleanupTransformationJob] has run: it is the only caller of
    [clearInterval]. *)
Definition cleanups (w : World) : nat := countEvents isClearInterval (trace w).

Definition polls (w : World) : nat := countEvents isAnyPoll (trace w).

Definition completionPolls (w : World) : nat :=
  countEvents (isPoll validStatesForCheckingDownloadUrl) (trace w).

Definition resumes (userActionStatus : string) (w : World) : nat :=
  countEvents (isResumeWith userActionStatus) (trace w).

Definition isResumeOf (jobId userActionStatus : string) (e : Event) : bool :=
  match e with
  | ResumeTransformationJob j s =>
      bool_decide (j = jobId) && bool_decide (s = userActionStatus)
  | _ => false
  end.

Definition isStopJobFor (jobId : string) (e : Event) : bool :=
  match e with
  | StopJob j => bool_decide (j = jobId)
  | _ => false
  end.

Definition isCleanUpArtifacts (e : Event) : bool :=
  match e with CleanUpArtifacts => true | _ => false end.

(** The statuses carried by the [codeTransform_totalRunTime] telemetry, the
    latest first: what each finished run was reported as, taken before
    cleanup puts the state back to idle. *)
Fixpoint reportedStatuses (tr : list Event) : list TransformByQStatus :=
  match tr with
  | [] => []
  | Telemetry (codeTransform_totalRunTime s _ _) :: rest => s :: reportedStatuses rest
  | _ :: rest => reportedStatuses rest
  end.

(** The part of a trace that concerns the remote job, oldest event first. *)
Definition isRemoteJobEvent (e : Event) : bool :=
  match e with
  | StartJob _ | StopJob _ | PollTransformationJob _ _ | ResumeTransformationJob _ _
  | Telemetry (codeTransform_jobIsCancelledByUser _) => true
  | _ => false
  end.

Definition remoteJobEvents (w : World) : list Event :=
  List.filter isRemoteJobEvent (rev (trace w)).

Definition isTerminal (s : TransformByQStatus) : bool :=
  match s with
  | SUCCEEDED | PARTIALLY_SUCCEEDED | FAILED | CANCELLED => true
  | _ => false
  end.

(** ** The classification of start failures, in the words of the spec

    "classifies the error message into one of {TOO_MANY_ACTIVE_JOBS,
    LOC_LIMIT_EXCEEDED, GENERIC} and sets the corresponding user-facing
    notification/chat text". The comparison is made on the lower-cased
    message, and the generic texts carry the lower-cased message. *)

Inductive StartFailure := TOO_MANY_ACTIVE_JOBS | LOC_LIMIT_EXCEEDED | GENERIC.

Definition classifyStartFailure (message : string) : StartFailure :=
  let lowered := Js.toLowerCase message in
  if Js.includes "too many active running jobs" lowered then TOO_MANY_ACTIVE_JOBS
  else if Js.includes "lines of code limit breached" lowered then LOC_LIMIT_EXCEEDED
  else GENERIC.

Definition startFailureNotification (K : Constants) (message : string) : string :=
  match classifyStartFailure message with
  | TOO_MANY_ACTIVE_JOBS => tooManyJobsNotification K
  | LOC_LIMIT_EXCEEDED => linesOfCodeLimitBreachedNotification K
  | GENERIC => Js.template2 (failedToStartJobNotification K) (Js.toLowerCase message)
  end.

Definition startFailureChatMessage (K : Constants) (message : string) : string :=
  match classifyStartFailure message with
  | TOO_MANY_ACTIVE_JOBS => tooManyJobsChatMessage K
  | LOC_LIMIT_EXCEEDED => linesOfCodeLimitBreachedChatMessage K
  | GENERIC => Js.template2 (failedToStartJobChatMessage K) (Js.toLowerCase message)
  end.

(** What a guarded write leaves in a failure text. *)
Definition retained (old : option string) (generic : string) : option string :=
  if Js.truthy old then old else Some generic.

(** Whether the [n]-th human-in-the-loop preparation raises an error. *)
Definition preparationFails (K : Constants) (p : HilPreparation) : bool :=
  match p with
  | VersionsParsed status => bool_decide (status = dependencyNoAvailableVersions K)
  | _ => true
  end.

(** ** Concrete inputs *)

Module Sample.

Definition constants : Constants := {|
  jobStartedNotification := "Transformation job started";
  failedToUploadProjectNotification := "Upload failed:";
  failedToUploadProjectChatMessage := "I could not upload your project:";
  failedToStartJobNotification := "Start failed:";
  failedToStartJobChatMessage := "I could not start the job:";
  tooManyJobsNotification := "Too many active jobs";
  tooManyJobsChatMessage := "You have too many active running jobs";
  linesOfCodeLimitBreachedNotification := "Lines of code limit reached";
  linesOfCodeLimitBreachedChatMessage := "Your project exceeds the lines of code limit";
  failedToCompleteJobNotification := "The job did not complete";
  failedToCompleteJobChatMessage := "I could not complete the job";
  jobCompletedChatMessage := "I completed your transformation";
  jobCompletedNotification := "Transformation complete";
  jobPartiallyCompletedChatMessage := "I partially completed your transformation";
  jobPartiallyCompletedNotification := "Transformation partially complete";
  upgradeLibrariesMessage := " Upgrade your libraries.";
  jobCancelledNotification := "Transformation cancelled";
  errorStoppingJobNotification := "Could not stop the job";
  dependencyNoAvailableVersions := "NoAvailableVersions";
|}.

Definition idleJob (type : TransformationType) : TransformByQState := {|
  status := NOT_STARTED; jobId := ""; polledJobStatus := "";
  transformationType := type;
  sourceJDKVersion := Some JDK8; targetJDKVersion := Some JDK17;
  jobFailureErrorNotification := None; jobFailureErrorChatMessage := None;
  payloadFilePath := ""; preBuildLogFilePath := ""; intervalId := None;
  hasSeenTransforming := false |}.

Definition idleWorld (type : TransformationType) : World := {|
  transformByQState := idleJob type; jobPlanProgress := ∅; context := ∅; timers := ∅;
  codeTransformMetaData := ∅; detached := []; trace := [] |}.

(** A world in the middle of a run of job ["J1"], with the given status. *)
Definition midRun (s : TransformByQStatus) : World :=
  W.setJob (JobState.setStatus s (JobState.setJobId "J1" (idleJob LANGUAGE_UPGRADE)))
    (idleWorld LANGUAGE_UPGRADE).

(** An environment in which the upload works, the plan poll works and
    everything not given as an argument works. *)
Definition envWith
    (start : Response string)
    (completion : nat -> Response string)
    (stops : AwaitPoint -> bool)
    (stop resume : nat -> Response unit)
    (preparation : nat -> HilPreparation)
    (selection : nat -> option (option string)) : Env := {|
  zipCodeResponse := Resolved "payload.zip";
  uploadPayloadResponse := Resolved "U1";
  startJobResponse := start;
  pollResponse := fun validStates n =>
    match validStates with
    | validStatesForPlanGenerated => Resolved "PLANNED"
    | validStatesForCheckingDownloadUrl => completion n
    end;
  makeTemporaryToolkitFolderResponse := Resolved "/tmp/toolkit";
  downloadAndExtractResultArchiveResponse := Resolved ();
  existsSync := fun _ => false;
  tmpdir := "/tmp";
  stopJobResponse := stop;
  resumeResponse := resume;
  hilPreparation := preparation;
  hilCompletion := fun _ => DependencyUploaded;
  operatorSelection := selection;
  operatorStops := stops;
|}.

Definition ok : nat -> Response unit := fun _ => Resolved ().
Definition never : AwaitPoint -> bool := fun _ => false.
Definition completes : nat -> Response string := fun _ => Resolved "COMPLETED".
Definition noHil : nat -> HilPreparation := fun _ => VersionsParsed "Found".
Definition silent : nat -> option (option string) := fun _ => None.

(** Everything works and the remote job completes. *)
Definition happy : Env := envWith (Resolved "J1") completes never ok ok noHil silent.

(** The upload is rejected. *)
Definition uploadRejected : Env := {|
  zipCodeResponse := Resolved "payload.zip";
  uploadPayloadResponse := Rejected "connection reset";
  startJobResponse := Resolved "J1";
  pollResponse := fun _ _ => Resolved "COMPLETED";
  makeTemporaryToolkitFolderResponse := Resolved "/tmp/toolkit";
  downloadAndExtractResultArchiveResponse := Resolved ();
  existsSync := fun _ => false;
  tmpdir := "/tmp";
  stopJobResponse := ok;
  resumeResponse := ok;
  hilPreparation := noHil;
  hilCompletion := fun _ => DependencyUploaded;
  operatorSelection := silent;
  operatorStops := never;
|}.

(** Both polls are rejected. *)
Definition pollsRejected : Env := {|
  zipCodeResponse := Resolved "payload.zip";
  uploadPayloadResponse := Resolved "U1";
  startJobResponse := Resolved "J1";
  pollResponse := fun _ _ => Rejected "timed out";
  makeTemporaryToolkitFolderResponse := Resolved "/tmp/toolkit";
  downloadAndExtractResultArchiveResponse := Resolved ();
  existsSync := fun _ => false;
  tmpdir := "/tmp";
  stopJobResponse := ok;
  resumeResponse := ok;
  hilPreparation := noHil;
  hilCompletion := fun _ => DependencyUploaded;
  operatorSelection := silent;
  operatorStops := never;
|}.

(** The remote start is rejected with a capitalised quota message. *)
Definition quotaMessage : string := "Too Many Active Running Jobs".
Definition startRejected : Env :=
  envWith (Rejected quotaMessage) completes never ok ok noHil silent.

(** The operator presses stop during the cooldown that follows the upload. *)
Definition stopDuringUploadCooldown : Env :=
  envWith (Resolved "J1") completes
    (fun pt => match pt with UploadCooldown => true | _ => false end)
    ok ok noHil silent.

(** The operator presses stop while the last completion poll is in flight,
    and that poll reports [COMPLETED]. *)
Definition stopDuringLastPoll : Env :=
  envWith (Resolved "J1") completes
    (fun pt =>
       match pt with
       | Polling validStatesForCheckingDownloadUrl 0 => true
       | _ => false
       end)
    ok ok noHil silent.

(** The job pauses once; the dependency tool finds no version; afterwards
    the job completes. The REJECTED resume is answered as [resume] says. *)
Definition noVersions (resume : nat -> Response unit) : Env :=
  envWith (Resolved "J1")
    (fun n => match n with 0 => Resolved "PAUSED" | _ => Resolved "COMPLETED" end)
    never ok resume
    (fun _ => VersionsParsed "NoAvailableVersions") silent.

(** The operator picks a version, the upload of the dependencies works, and
    the COMPLETED resume is rejected. *)
Definition resumeCompletedRejected : Env :=
  envWith (Resolved "J1") completes never ok
    (fun n => match n with 0 => Rejected "resume failed" | _ => Resolved () end)
    noHil (fun _ => Some (Some "2.0.0")).

End Sample.

(** ** The rest of startTransformByQ.ts *)

(** *** The transformation form *)

Module JobForm.

(** Modelled from the spec: setters of the class in [models/model.ts]; each
    assigns the field it names. *)
Definition setTransformationType (v : TransformationType) (s : TransformByQState) :=
  {| status := status s; jobId := jobId s; polledJobStatus := polledJobStatus s;
     transformationType := v;
     sourceJDKVersion := sourceJDKVersion s; targetJDKVersion := targetJDKVersion s;
     jobFailureErrorNotification := jobFailureErrorNotification s;
     jobFailureErrorChatMessage := jobFailureErrorChatMessage s;
     payloadFilePath := payloadFilePath s; preBuildLogFilePath := preBuildLogFilePath s;
     intervalId := intervalId s; hasSeenTransforming := hasSeenTransforming s |}.

Definition setSourceJDKVersion (v : JDKVersion) (s : TransformByQState) :=
  {| status := status s; jobId := jobId s; polledJobStatus := polledJobStatus s;
     transformationType := transformationType s;
     sourceJDKVersion := Some v; targetJDKVersion := targetJDKVersion s;
     jobFailureErrorNotification := jobFailureErrorNotification s;
     jobFailureErrorChatMessage := jobFailureErrorChatMessage s;
     payloadFilePath := payloadFilePath s; preBuildLogFilePath := preBuildLogFilePath s;
     intervalId := intervalId s; hasSeenTransforming := hasSeenTransforming s |}.

Definition setTargetJDKVersion (v : JDKVersion) (s : TransformByQState) :=
  {| status := status s; jobId := jobId s; polledJobStatus := polledJobStatus s;
     transformationType := transformationType s;
     sourceJDKVersion := sourceJDKVersion s; targetJDKVersion := Some v;
     jobFailureErrorNotification := jobFailureErrorNotification s;
     jobFailureErrorChatMessage := jobFailureErrorChatMessage s;
     payloadFilePath := payloadFilePath s; preBuildLogFilePath := preBuildLogFilePath s;
     intervalId := intervalId s; hasSeenTransforming := hasSeenTransforming s |}.

End JobForm.

(** [setProjectName], [setProjectPath] and [setSchema] write fields that only
    the packaging collaborator reads; they are left out. *)
Definition processLanguageUpgradeTransformFormInput
    (pathToProject : string) (fromJDKVersion toJDKVersion : JDKVersion) : Async unit :=
  modifyJob (JobForm.setTransformationType LANGUAGE_UPGRADE);;
  modifyJob (JobForm.setSourceJDKVersion fromJDKVersion);;
  modifyJob (JobForm.setTargetJDKVersion toJDKVersion).

Definition processSQLConversionTransformFormInput (pathToProject schema : string) :
    Async unit :=
  modifyJob (JobForm.setTransformationType SQL_CONVERSION);;
  modifyJob (JobForm.setSourceJDKVersion JDK8);;
  modifyJob (JobForm.setTargetJDKVersion JDK17).

(** *** The candidate projects *)

Module Candidates.

Record TransformationCandidateProject := {
  name : string;
  path : string;
}.

(** What [findStringInDirectory] resolves to. *)
Record SpawnResult := {
  exitCode : Z;
  error : option string;
  stderr : string;
}.

(** [resultLog] is a string to which one text is appended per search; the
    texts embed [JSON.stringify] of the result or the exit code. It is kept
    as the list of what was appended, oldest first. *)
Inductive LogEntry :=
| SearchError (spawnResult : SpawnResult)
| SearchComplete (exitCode : Z).

Definition searchStrings : list string := ["oracle.jdbc."; "jdbc:oracle:"; "jdbc:odbc:"].

Section Collaborators.

(** The collaborators of transformProjectValidationHandler and workspaceUtils. *)
Variable getOpenProjects : Response (list TransformationCandidateProject).
Variable getJavaProjects :
  list TransformationCandidateProject -> Response (list TransformationCandidateProject).
Variable findStringInDirectory : string -> string -> Response SpawnResult.

Definition logEntry (spawnResult : SpawnResult) : LogEntry :=
  if bool_decide (error spawnResult ≠ None) || bool_decide (stderr spawnResult ≠ "")
  then SearchError spawnResult
  else SearchComplete (exitCode spawnResult).

(** The inner loop [for (const str of searchStrings)]: whether the project
    was pushed, and the log after it. *)
Fixpoint searchProject (project : TransformationCandidateProject) (strs : list string)
    (resultLog : list LogEntry) : Outcome (bool * list LogEntry) :=
  match strs with
  | [] => Returned (false, resultLog)
  | str :: rest =>
      match findStringInDirectory str (path project) with
      | Rejected message => Thrown (ExternalError message)
      | Resolved spawnResult =>
          let resultLog := (resultLog ++ [logEntry spawnResult])%list in
          if bool_decide (exitCode spawnResult = 0%Z) then Returned (true, resultLog)
          else searchProject project rest resultLog
      end
  end.

(** The outer loop [for (const project of javaProjects)]. *)
Fixpoint searchProjects (javaProjects embeddedSQLProjects : list TransformationCandidateProject)
    (resultLog : list LogEntry) :
    Outcome (list TransformationCandidateProject * list LogEntry) :=
  match javaProjects with
  | [] => Returned (embeddedSQLProjects, resultLog)
  | project :: rest =>
      match searchProject project searchStrings resultLog with
      | Thrown e => Thrown e
      | Returned (found, resultLog) =>
          searchProjects rest
            (if found then (embeddedSQLProjects ++ [project])%list else embeddedSQLProjects)
            resultLog
      end
  end.

(** The projects returned, with the [codeTransformMetadata] recorded for the
    telemetry; a rejection of a collaborator leaves the function as it is. *)
Definition getValidSQLConversionCandidateProjects :
    Outcome (list TransformationCandidateProject * list LogEntry) :=
  match getOpenProjects with
  | Rejected message => Thrown (ExternalError message)
  | Resolved openProjects =>
      match getJavaProjects openProjects with
      | Rejected message => Thrown (ExternalError message)
      | Resolved javaProjects => searchProjects javaProjects [] []
      end
  end.

End Collaborators.

(** A project in which [search] finds one of the three search strings. *)
Definition hasEmbeddedSQL (search : string -> string -> SpawnResult)
    (project : TransformationCandidateProject) : bool :=
  existsb (fun str => bool_decide (exitCode (search str (path project)) = 0%Z)) searchStrings.

End Candidates.

(** ** Further observations on a world *)

#[global] Instance Error_eq_dec : EqDecision Error.
Proof. solve_decision. Defined.

Definition isZipCode (e : Event) : bool :=
  match e with ZipCode => true | _ => false end.
Definition isUploadPayload (e : Event) : bool :=
  match e with UploadPayload _ => true | _ => false end.
Definition isSleepOf (ms : nat) (e : Event) : bool :=
  match e with Sleep n => bool_decide (n = ms) | _ => false end.
Definition isRmSyncOf (path : string) (e : Event) : bool :=
  match e with RmSync p => bool_decide (p = path) | _ => false end.
Definition isStartReview (e : Event) : bool :=
  match e with
  | ExecuteCommand c =>
      bool_decide (c = "aws.amazonq.transformationHub.reviewChanges.startReview")
  | _ => false
  end.
Definition isShowErrorMessage (e : Event) : bool :=
  match e with ShowErrorMessage _ => true | _ => false end.
Definition isErrorThrownOf (error : Error) (e : Event) : bool :=
  match e with Chat (errorThrown x) => bool_decide (x = error) | _ => false end.
Definition isSelectionUploaded (e : Event) : bool :=
  match e with Chat humanInTheLoopSelectionUploaded => true | _ => false end.

(** The results carried by the [codeTransform_totalRunTime] telemetry. *)
Fixpoint reportedResults (tr : list Event) : list MetadataResult :=
  match tr with
  | [] => []
  | Telemetry (codeTransform_totalRunTime _ _ r) :: rest => r :: reportedResults rest
  | _ :: rest => reportedResults rest
  end.

(** The results carried by the [codeTransform_humanInTheLoop] telemetry. *)
Fixpoint hilResults (tr : list Event) : list MetadataResult :=
  match tr with
  | [] => []
  | Telemetry (codeTransform_humanInTheLoop _ r) :: rest => r :: hilResults rest
  | _ :: rest => hilResults rest
  end.

(** The messages of the [transformationFinished] chat events. *)
Fixpoint finishedMessages (tr : list Event) : list (option string) :=
  match tr with
  | [] => []
  | Chat (transformationFinished m) :: rest => m :: finishedMessages rest
  | _ :: rest => finishedMessages rest
  end.

Definition isSuccess (s : TransformByQStatus) : bool :=
  match s with
  | SUCCEEDED | PARTIALLY_SUCCEEDED => true
  | _ => false
  end.

(** The statuses a run can be reported with. *)
Definition isReportable (s : TransformByQStatus) : bool :=
  match s with
  | NOT_STARTED | PAUSED => false
  | _ => true
  end.

(** [m] started where [P] holds ends where [Q] holds; [Q] sees how [m]
    ended. *)
Definition Ends {A} (P : World -> Prop) (m : Async A) (Q : Outcome A -> World -> Prop) :
    Prop :=
  ∀ w, P w → Q (fst (m w)) (snd (m w)).

(** The job has not been finalized as successful, and the plan step
    [transformCode] is not marked as succeeded. *)
Definition transformCodePending (w : World) : Prop :=
  isSuccess (status (transformByQState w)) = false ∧
  jobPlanProgress w !! "transformCode" ≠ Some StepProgress.Succeeded.

(** The job has been finalized as successful, and the plan step says so. *)
Definition transformCodeSettled (w : World) : Prop :=
  isSuccess (status (transformByQState w)) = true ∧
  jobPlanProgress w !! "transformCode" = Some StepProgress.Succeeded.

(** ** Further sample environments *)

Module Scenario.

(** The operator stops the job while the plan poll is in flight. *)
Definition stopDuringPlanPoll : Env :=
  Sample.envWith (Resolved "J1") Sample.completes
    (fun pt =>
       match pt with
       | Polling validStatesForPlanGenerated _ => true
       | _ => false
       end)
    Sample.ok Sample.ok Sample.noHil Sample.silent.

(** The operator stops the job while the project is packaged. *)
Definition stopDuringPackaging : Env :=
  Sample.envWith (Resolved "J1") Sample.completes
    (fun pt =>
       match pt with
       | ZippingCode => true
       | _ => false
       end)
    Sample.ok Sample.ok Sample.noHil Sample.silent.

(** Everything works until the completion poll, which is rejected. *)
Definition completionPollRejected : Env :=
  Sample.envWith (Resolved "J1") (fun _ => Rejected "timed out")
    Sample.never Sample.ok Sample.ok Sample.noHil Sample.silent.

(** Two Java projects; the second one holds an Oracle JDBC URL. *)
Definition projects : list Candidates.TransformationCandidateProject :=
  [ {| Candidates.name := "billing"; Candidates.path := "/work/billing" |};
    {| Candidates.name := "orders"; Candidates.path := "/work/orders" |} ].

Definition grep (str dir : string) : Candidates.SpawnResult :=
  {| Candidates.exitCode :=
       if bool_decide (dir = "/work/orders") && bool_decide (str = "jdbc:oracle:")
       then 0%Z else 1%Z;
     Candidates.error := None;
     Candidates.stderr := "" |}.

End Scenario.

(** * Verification *)

(** ** Invariants and exits of computations *)

(** [m] keeps the invariant [I], however it ends. *)
Definition Preserves {A} (I : World -> Prop) (m : Async A) : Prop :=
  ∀ w, I w → I (snd (m w)).

(** [m] ends with an exception from every world. *)
Definition AlwaysThrows {A} (m : Async A) : Prop :=
  ∀ w, ∃ e, fst (m w) = Thrown e.

(** [m] returns from every world. *)
Definition NeverThrows {A} (m : Async A) : Prop :=
  ∀ w, ∃ a, fst (m w) = Returned a.

(** What [postTransformationJob] does to one plan step. *)
Definition failedUnlessSucceeded (step : string) (p : gmap string StepProgress.t) :
    gmap string StepProgress.t :=
  if bool_decide (p !! step ≠ Some StepProgress.Succeeded)
  then <[step := StepProgress.Failed]> p
  else p.

Definition allFailedUnlessSucceeded (p : gmap string StepProgress.t) :
    gmap string StepProgress.t :=
  failedUnlessSucceeded "transformCode"
    (failedUnlessSucceeded "generatePlan"
       (failedUnlessSucceeded "buildCode"
          (failedUnlessSucceeded "uploadCode" p))).

(** The run fails before the remote start has assigned a job id: the
    packaging, the upload or the start itself is rejected. *)
Definition failsBeforeJobId (env : Env) : Prop :=
  (∃ message, zipCodeResponse env = Rejected message) ∨
  (∃ message, uploadPayloadResponse env = Rejected message) ∨
  (∃ message, startJobResponse env = Rejected message).

(** The operator does not press stop before the remote start has answered. *)
Definition noStopBeforeJobId (env : Env) : Prop :=
  operatorStops env ZippingCode = false ∧
  operatorStops env UploadingPayload = false ∧
  operatorStops env UploadCooldown = false ∧
  operatorStops env StartingJob = false.

(** What the remote job and the dependency tool do from [w] on: the next
    [n] polls yield PAUSED and each pause ends in an error of the preparation
    that is contained, then a poll yields the status [st], which is not
    PAUSED. The operator does not stop the job during these polls, and the
    stop request of a failed finalization is answered. *)
Definition pausesThenYields (K : Constants) (env : Env) (w : World) (n : nat) (st : string) :
    Prop :=
  (∀ i, i < n →
     pollResponse env validStatesForCheckingDownloadUrl (completionPolls w + i)
     = Resolved "PAUSED" ∧
     operatorStops env (Polling validStatesForCheckingDownloadUrl (completionPolls w + i))
     = false ∧
     preparationFails K
       (hilPreparation env (countEvents isGetTransformationSteps (trace w) + i)) = true ∧
     resumeResponse env (countEvents isResume (trace w) + i) = Resolved ()) ∧
  pollResponse env validStatesForCheckingDownloadUrl (completionPolls w + n) = Resolved st ∧
  st ≠ "PAUSED" ∧
  operatorStops env (Polling validStatesForCheckingDownloadUrl (completionPolls w + n))
  = false ∧
  stopJobResponse env (countEvents isStopJob (trace w)) = Resolved ().

(** Both failure texts hold the given values. *)
Definition failureTextsAre (notification chat : string) (w : World) : Prop :=
  jobFailureErrorNotification (transformByQState w) = Some notification ∧
  jobFailureErrorChatMessage (transformByQState w) = Some chat.

(** The timer of the run: started by [startInterval], kept by every stage. *)
Definition timerIs (id : nat) (T : gset nat) (w : World) : Prop :=
  intervalId (transformByQState w) = Some id ∧ timers w = {[id]} ∪ T.

(** A SQL conversion whose plan step has not been marked. *)
Definition sqlPlanPending (w : World) : Prop :=
  transformationType (transformByQState w) = SQL_CONVERSION ∧
  jobPlanProgress w !! "generatePlan" = Some StepProgress.Pending.

(** ** Symbolic execution *)

Ltac exec_state :=
  cbv beta iota zeta delta
      [mbind mret Async_bind Async_ret throw tryCatch tryFinally getWorld getJob modifyJob
       emit callsSoFar settle fst snd
       executeCommand showInformationMessage showErrorMessage fire telemetryEmit
       setContext setProgress setCodeTransformMetaDataField resetCodeTransformMetaDataField
       spawn setInterval clearInterval cleanUpArtifacts
       W.setJob W.setProgress W.setContext W.setTimers W.setMetaData W.setDetached W.setTrace
       transformByQState jobPlanProgress context timers codeTransformMetaData detached trace
       JobState.setStatus JobState.setJobId JobState.setPolledJobStatus
       JobState.setJobFailureErrorNotification JobState.setJobFailureErrorChatMessage
       JobState.setPayloadFilePath JobState.setPreBuildLogFilePath JobState.setIntervalId
       JobState.setHasSeenTransforming JobState.setToRunning JobState.setToSucceeded
       JobState.setToPartiallySucceeded JobState.setToFailed JobState.setToCancelled
       JobState.setJobDefaults
       JobState.isRunning JobState.isCancelled JobState.isSucceeded JobState.isPartiallySucceeded
       status jobId polledJobStatus transformationType sourceJDKVersion targetJDKVersion
       jobFailureErrorNotification jobFailureErrorChatMessage payloadFilePath
       preBuildLogFilePath intervalId hasSeenTransforming
       cleanups polls completionPolls resumes errorMessage runTask
       negb andb orb] in *.

Ltac exec :=
  exec_state;
  cbn [countEvents isStopJob isResume isResumeWith isResumeOf isPoll isAnyPoll isStartJob
       isGetTransformationSteps isApplySelectedDependency isPrompt isClearInterval
       isStopJobFor isCleanUpArtifacts reportedStatuses Nat.add eventLoop app] in *;
  exec_state.

Ltac unfold_program :=
  unfold startTransformByQ, runStages, startInterval, setTransformationToRunningState,
    setContextVariables, preTransformationUploadCode, startTransformationJob,
    pollTransformationStatusUntilPlanReady, pollTransformationStatusUntilComplete,
    humanInTheLoopRetryLogic, finalizeTransformByQ, finalizeTransformationJob,
    setGenericFailureUnlessSet, transformationJobErrorHandler, postTransformationJob,
    cleanupTransformationJob,
    failUnlessSucceeded, initiateHumanInTheLoopPrompt, prepareHumanInTheLoopPrompt,
    promptUserForDependency, terminateHILEarly, finishHumanInTheLoop,
    applySelectedDependency, throwIfCancelled, stopJob, resumeTransformationJob,
    stopTransformByQ, suspended, await, sleep, zipCode, uploadPayload, startJob,
    pollTransformationJob, makeTemporaryToolkitFolder, downloadAndExtractResultArchive in *.

(** The function called at the head of a computation. *)
Ltac head_of t :=
  lazymatch t with
  | ?f _ => head_of f
  | _ => t
  end.

(** The scrutinee on which the evaluation of [t] is stuck: the one in head
    position, below the matches and applications that wait for it. *)
Ltac stuck_on t :=
  lazymatch t with
  | match ?x with _ => _ end => stuck_on x
  | ?f _ =>
      let h := head_of f in
      lazymatch h with
      | match ?x with _ => _ end => stuck_on x
      | _ => t
      end
  | _ => t
  end.

(** Succeeds on terms built from constants and constructors only. *)
Ltac ground t :=
  lazymatch t with
  | ?f ?x => ground f; ground x
  | _ => first [ is_constructor t | is_const t | is_ind t ]
  end.

(** A test between closed values is computed; any other is a case split. *)
Ltac decide_or_split y :=
  first
    [ ground y;
      let v := eval vm_compute in y in
      lazymatch v with
      | true => change y with true
      | false => change y with false
      end
    | lazymatch y with
      | bool_decide (?a = ?a) => rewrite (bool_decide_eq_true_2 (a = a) eq_refl)
      end
    | match goal with H : y = _ |- _ => rewrite H end
    | let v := fresh "v" in
      let E := fresh "E" in
      assert (E : ∃ v, y = v) by (eexists; reflexivity);
      destruct E as [v E]; rewrite E; destruct v ].

Ltac split_stuck :=
  match goal with
  | |- context [match ?x with _ => _ end] =>
      let y := stuck_on x in decide_or_split y
  end.

Ltac run := repeat (progress unfold_program); exec; repeat (split_stuck; exec).

Ltac reflect_tests :=
  repeat match goal with
         | H : bool_decide _ = true |- _ => apply bool_decide_eq_true in H
         | H : bool_decide _ = false |- _ => apply bool_decide_eq_false in H
         end.

Ltac unfold_call :=
  lazymatch goal with
  | |- _ _ ?m => let h := head_of m in progress unfold h
  | |- _ ?m => let h := head_of m in progress unfold h
  end.

(** Leaves of a proof about the trace or the job state: unfold the call, or
    run the primitive. *)
Ltac leaf_by tac :=
  first
    [ unfold_call
    | let w := fresh "w" in let H := fresh "H" in
      intros w H; exec; repeat (split_stuck; exec); tac ].

Section Rules.

Context (I : World -> Prop).

Lemma Preserves_bind {A B} (m : Async A) (k : A -> Async B) :
  Preserves I m → (∀ a, Preserves I (k a)) → Preserves I (m ≫= k).
Proof.
  intros Hm Hk w H. specialize (Hm w H).
  unfold mbind, Async_bind. destruct (m w) as [[a|e] w']; cbn in *.
  - now apply Hk.
  - exact Hm.
Qed.

Lemma Preserves_bind_throws {A B} (m : Async A) (k : A -> Async B) :
  Preserves I m → AlwaysThrows m → Preserves I (m ≫= k).
Proof.
  intros Hm Ht w H. specialize (Hm w H). destruct (Ht w) as [e He].
  unfold mbind, Async_bind. destruct (m w) as [[a|e'] w']; cbn in *.
  - discriminate.
  - exact Hm.
Qed.

Lemma Preserves_tryCatch {A} (m : Async A) (h : Error -> Async A) :
  Preserves I m → (∀ e, Preserves I (h e)) → Preserves I (tryCatch m h).
Proof.
  intros Hm Hh w H. specialize (Hm w H).
  unfold tryCatch. destruct (m w) as [[a|e] w']; cbn in *.
  - exact Hm.
  - now apply Hh.
Qed.

Lemma Preserves_tryFinally {A} (m : Async A) (f : Outcome A -> Async unit) :
  Preserves I m → (∀ r, Preserves I (f r)) → Preserves I (tryFinally m f).
Proof.
  intros Hm Hf w H. specialize (Hm w H).
  unfold tryFinally. destruct (m w) as [r w']; cbn in *.
  specialize (Hf r w' Hm). destruct (f r w') as [[u|e] w'']; exact Hf.
Qed.

End Rules.

Lemma NeverThrows_bind {A B} (m : Async A) (k : A -> Async B) :
  NeverThrows m → (∀ a, NeverThrows (k a)) → NeverThrows (m ≫= k).
Proof.
  intros Hm Hk w. destruct (Hm w) as [a Ha].
  unfold mbind, Async_bind. destruct (m w) as [[a'|e] w']; cbn in *.
  - apply Hk.
  - discriminate.
Qed.

Lemma bind_returned {A B} (m : Async A) (k : A -> Async B) w a w' :
  m w = (Returned a, w') → (m ≫= k) w = k a w'.
Proof. intros H. unfold mbind, Async_bind. now rewrite H. Qed.

Lemma bind_thrown {A B} (m : Async A) (k : A -> Async B) w e w' :
  m w = (Thrown e, w') → (m ≫= k) w = (Thrown e, w').
Proof. intros H. unfold mbind, Async_bind. now rewrite H. Qed.

Lemma NeverThrows_inv {A} (m : Async A) :
  NeverThrows m → ∀ w, ∃ a, m w = (Returned a, snd (m w)).
Proof. intros H w. destruct (H w) as [a Ha]. exists a. destruct (m w); cbn in *; now subst. Qed.

(** One structural step of a proof that a computation keeps an invariant;
    [leaf] closes the calls and the primitive steps. *)
Ltac preserves_step leaf :=
  lazymatch goal with
  | |- Preserves _ (mret _) => intros ? ?; assumption
  | |- Preserves _ (throw _) => intros ? ?; assumption
  | |- Preserves _ getJob => intros ? ?; assumption
  | |- Preserves _ getWorld => intros ? ?; assumption
  | |- Preserves _ (callsSoFar _) => intros ? ?; assumption
  | |- Preserves _ (settle ?r) => intros ? ?; destruct r; assumption
  | |- Preserves _ (_ ≫= _) => apply Preserves_bind; [| intros ?]
  | |- Preserves _ (tryCatch _ _) => apply Preserves_tryCatch; [| intros ?]
  | |- Preserves _ (tryFinally _ _) => apply Preserves_tryFinally; [| intros ?]
  | |- Preserves _ (match ?x with _ => _ end) => destruct x
  | |- Preserves _ _ => leaf
  end.

Ltac preserves_with leaf := repeat preserves_step leaf.

Ltac never_throws_step :=
  lazymatch goal with
  | |- NeverThrows (_ ≫= _) => apply NeverThrows_bind; [| intros ?]
  | |- NeverThrows (match ?x with _ => _ end) => destruct x
  | |- NeverThrows _ =>
      first [ unfold_call
            | let w := fresh "w" in intros w; eexists; reflexivity ]
  end.

Ltac never_throws := repeat never_throws_step.

(** ** The shape of a run *)

Lemma setTransformationToRunningState_returns : NeverThrows setTransformationToRunningState.
Proof. never_throws. Qed.

Lemma postTransformationJob_returns K env : NeverThrows (postTransformationJob K env).
Proof. never_throws. Qed.

Lemma cleanupTransformationJob_returns : NeverThrows cleanupTransformationJob.
Proof. never_throws. Qed.

(** A run is: enter the running state, run the stages under the error
    handler, report, clean up; the last two happen however the stages end. *)
Lemma startTransformByQ_shape K env w :
  snd (startTransformByQ K env w) =
  snd (cleanupTransformationJob
         (snd (postTransformationJob K env
                 (snd (tryCatch (runStages K env) (transformationJobErrorHandler K env)
                         (snd (setTransformationToRunningState w))))))).
Proof.
  unfold startTransformByQ.
  destruct (NeverThrows_inv _ setTransformationToRunningState_returns w) as [[] E1].
  rewrite (bind_returned _ _ _ _ _ E1).
  set (w1 := snd (setTransformationToRunningState w)).
  unfold tryFinally.
  destruct (tryCatch (runStages K env) (transformationJobErrorHandler K env) w1) as [r w2].
  cbn [snd].
  destruct (NeverThrows_inv _ (postTransformationJob_returns K env) w2) as [[] E2].
  rewrite (bind_returned _ _ _ _ _ E2).
  destruct (cleanupTransformationJob (snd (postTransformationJob K env w2))) as [[u|e] w4];
    reflexivity.
Qed.

(** ** C7: cleanup *)

Lemma stages_keep_cleanups K env c :
  Preserves (fun w => cleanups w = c)
    (tryCatch (runStages K env) (transformationJobErrorHandler K env)).
Proof. preserves_with ltac:(leaf_by assumption). Qed.

Lemma setTransformationToRunningState_keeps_cleanups c :
  Preserves (fun w => cleanups w = c) setTransformationToRunningState.
Proof. preserves_with ltac:(leaf_by assumption). Qed.

Lemma postTransformationJob_keeps_cleanups K env c :
  Preserves (fun w => cleanups w = c) (postTransformationJob K env).
Proof. preserves_with ltac:(leaf_by assumption). Qed.

Lemma cleanupTransformationJob_counts w :
  cleanups (snd (cleanupTransformationJob w)) = S (cleanups w).
Proof. reflexivity. Qed.

Lemma stages_keep_timer K env id T :
  Preserves (timerIs id T)
    (tryCatch
       (uploadId ← preTransformationUploadCode K env;
        jobId ← startTransformationJob K env uploadId;
        pollTransformationStatusUntilPlanReady K env jobId;;
        humanInTheLoopRetryLogic K env jobId)
       (transformationJobErrorHandler K env)).
Proof. unfold timerIs. preserves_with ltac:(leaf_by assumption). Qed.

Lemma postTransformationJob_keeps_timer K env id T :
  Preserves (timerIs id T) (postTransformationJob K env).
Proof. unfold timerIs. preserves_with ltac:(leaf_by assumption). Qed.

Lemma setTransformationToRunningState_keeps_timers T :
  Preserves (fun w => timers w = T) setTransformationToRunningState.
Proof. preserves_with ltac:(leaf_by assumption). Qed.

Lemma cleanupTransformationJob_state w :
  let w' := snd (cleanupTransformationJob w) in
  status (transformByQState w') = NOT_STARTED ∧
  intervalId (transformByQState w') = None ∧
  jobFailureErrorNotification (transformByQState w') = None ∧
  jobFailureErrorChatMessage (transformByQState w') = None ∧
  context w' !! "gumby.isStopButtonAvailable" = Some false ∧
  codeTransformMetaData w' = ∅.
Proof.
  cbn zeta. run; repeat split; try reflexivity; apply lookup_insert_eq.
Qed.

Lemma cleanupTransformationJob_idempotent w :
  let once := snd (cleanupTransformationJob w) in
  fst (cleanupTransformationJob once) = Returned () ∧
  W.setTrace [] (snd (cleanupTransformationJob once)) = W.setTrace [] once.
Proof.
  cbn zeta. run; (split; [reflexivity |]); now rewrite insert_insert_eq.
Qed.

Lemma runTask_keeps_cleanups K env t c :
  Preserves (fun w => cleanups w = c) (runTask K env t).
Proof. destruct t; preserves_with ltac:(leaf_by assumption). Qed.

(** The calls that a run leaves behind never clean up. *)
Lemma eventLoop_keeps_cleanups K env fuel :
  ∀ w, cleanups (eventLoop K env fuel w) = cleanups w.
Proof.
  induction fuel as [| fuel IH]; intros w; [reflexivity |].
  cbn [eventLoop]. destruct (detached w) as [| t rest]; [reflexivity |].
  pose proof (runTask_keeps_cleanups K env t (cleanups w) (W.setDetached rest w) eq_refl)
    as H.
  destruct (runTask K env t (W.setDetached rest w)) as [[u | e] w1];
    cbn [snd] in H; rewrite IH; exact H.
Qed.


(** ** The plan steps at the end of a run *)

Lemma failUnlessSucceeded_eq step w :
  failUnlessSucceeded step w =
  (Returned (), W.setProgress (failedUnlessSucceeded step (jobPlanProgress w)) w).
Proof.
  unfold failUnlessSucceeded, failedUnlessSucceeded. exec.
  destruct (bool_decide _); reflexivity.
Qed.

Lemma postTransformationJob_progress K env w :
  jobPlanProgress (snd (postTransformationJob K env w)) =
  allFailedUnlessSucceeded (jobPlanProgress w).
Proof.
  unfold postTransformationJob.
  erewrite bind_returned by reflexivity.
  do 4 (erewrite bind_returned by apply failUnlessSucceeded_eq).
  match goal with
  | |- jobPlanProgress (snd (?m ?w0)) = ?p =>
      assert (Hp : Preserves (fun w => jobPlanProgress w = p) m)
        by preserves_with ltac:(leaf_by assumption);
      apply Hp
  end.
  reflexivity.
Qed.

Lemma cleanupTransformationJob_progress w :
  jobPlanProgress (snd (cleanupTransformationJob w)) = jobPlanProgress w.
Proof. run; reflexivity. Qed.

Lemma failedUnlessSucceeded_lookup step step' p :
  failedUnlessSucceeded step p !! step' =
  if bool_decide (step' = step) then
    Some (if bool_decide (p !! step = Some StepProgress.Succeeded)
          then StepProgress.Succeeded else StepProgress.Failed)
  else p !! step'.
Proof.
  unfold failedUnlessSucceeded.
  destruct (decide (step' = step)) as [->|Hne].
  - rewrite (bool_decide_eq_true_2 (step = step)) by reflexivity.
    destruct (decide (p !! step = Some StepProgress.Succeeded)) as [E|E].
    + rewrite bool_decide_eq_false_2 by (intros H; now apply H).
      now rewrite bool_decide_eq_true_2.
    + rewrite bool_decide_eq_true_2 by assumption.
      rewrite bool_decide_eq_false_2 by assumption.
      apply lookup_insert_eq.
  - rewrite (bool_decide_eq_false_2 (step' = step)) by assumption.
    destruct (bool_decide _); [| reflexivity].
    now apply lookup_insert_ne.
Qed.

(** After [postTransformationJob] each of the four plan steps is SUCCEEDED
    if it was, and FAILED otherwise. *)
Lemma postTransformationJob_steps K env w step :
  step ∈ planSteps →
  jobPlanProgress (snd (postTransformationJob K env w)) !! step =
  Some (if bool_decide (jobPlanProgress w !! step = Some StepProgress.Succeeded)
        then StepProgress.Succeeded else StepProgress.Failed).
Proof.
  intros Hin. rewrite postTransformationJob_progress.
  unfold allFailedUnlessSucceeded, planSteps in *.
  rewrite !failedUnlessSucceeded_lookup.
  repeat (apply elem_of_cons in Hin as [-> | Hin]);
    [ .. | now apply elem_of_nil in Hin ];
    repeat match goal with
           | |- context [bool_decide (?a = ?b :> string)] =>
               let v := eval vm_compute in (bool_decide (a = b)) in
               change (bool_decide (a = b)) with v
           end;
    cbv iota;
    rewrite ?failedUnlessSucceeded_lookup;
    repeat match goal with
           | |- context [bool_decide (?a = ?b :> string)] =>
               let v := eval vm_compute in (bool_decide (a = b)) in
               change (bool_decide (a = b)) with v
           end;
    reflexivity.
Qed.

(** ** C1: finalization *)

(** Counterexample to C1 as stated — a run that the operator has cancelled
    is finalized with a status outside COMPLETED and PARTIALLY_COMPLETED: the
    run is left CANCELLED, not marked FAILED. *)
Lemma finalize_of_cancelled_run_is_not_failed :
  let w := Sample.midRun CANCELLED in
  let w' := snd (finalizeTransformByQ Sample.constants Sample.happy "STOPPED" w) in
  "STOPPED" ≠ "COMPLETED" ∧ "STOPPED" ≠ "PARTIALLY_COMPLETED" ∧
  status (transformByQState w') = CANCELLED ∧
  status (transformByQState w') ≠ FAILED.
Proof. vm_compute. repeat split; discriminate. Qed.

(** C1 (amended) — for every status other than COMPLETED and
    PARTIALLY_COMPLETED: [finalizeTransformationJob] marks the
    [transformCode] step FAILED and throws, leaving the status to the error
    handler; [finalizeTransformByQ], which runs that handler, leaves a
    cancelled run CANCELLED and marks any other run FAILED once the stop
    request has been answered; and [postTransformationJob] leaves every plan
    step SUCCEEDED if it was and FAILED otherwise. *)
Theorem finalize_outside_completed K env (st : string) (w : World) :
  st ≠ "COMPLETED" → st ≠ "PARTIALLY_COMPLETED" →
  (let r := finalizeTransformationJob K st w in
   fst r = Thrown (JsError "Job was not successful nor partially successful") ∧
   jobPlanProgress (snd r) !! "transformCode" = Some StepProgress.Failed ∧
   status (transformByQState (snd r)) = status (transformByQState w)) ∧
  (let r := finalizeTransformByQ K env st w in
   jobPlanProgress (snd r) !! "transformCode" = Some StepProgress.Failed ∧
   (status (transformByQState w) = CANCELLED →
    fst r = Returned () ∧ status (transformByQState (snd r)) = CANCELLED) ∧
   (status (transformByQState w) ≠ CANCELLED →
    stopJobResponse env (countEvents isStopJob (trace w)) = Resolved () →
    fst r = Returned () ∧ status (transformByQState (snd r)) = FAILED)) ∧
  (∀ w0 step, step ∈ planSteps →
     jobPlanProgress (snd (postTransformationJob K env w0)) !! step =
     Some (if bool_decide (jobPlanProgress w0 !! step = Some StepProgress.Succeeded)
           then StepProgress.Succeeded else StepProgress.Failed)).
Proof.
  intros H1 H2. cbn zeta.
  split; [| split].
  - unfold finalizeTransformationJob.
    rewrite !bool_decide_eq_false_2 by assumption.
    run; repeat split; apply lookup_insert_eq.
  - unfold finalizeTransformByQ, finalizeTransformationJob.
    rewrite !bool_decide_eq_false_2 by assumption.
    run; reflect_tests;
      (split; [apply lookup_insert_eq |]);
      (split; [intros Hc | intros Hc Hs]);
      try congruence; try (split; reflexivity).
  - intros w0 step. apply postTransformationJob_steps.
Qed.

Lemma finalize_outside_completed_witness :
  "STOPPED" ≠ "COMPLETED" ∧ "STOPPED" ≠ "PARTIALLY_COMPLETED" ∧
  status (transformByQState
            (snd (finalizeTransformByQ Sample.constants Sample.happy "STOPPED"
                    (Sample.midRun RUNNING)))) = FAILED.
Proof.
  assert (A : "STOPPED" ≠ "COMPLETED") by discriminate.
  assert (B : "STOPPED" ≠ "PARTIALLY_COMPLETED") by discriminate.
  split; [exact A | split; [exact B |]].
  destruct (finalize_outside_completed Sample.constants Sample.happy "STOPPED"
              (Sample.midRun RUNNING) A B) as (_ & (_ & _ & F) & _).
  apply F; [discriminate | reflexivity].
Defined.

(** ** C9: the plan step of a SQL conversion *)

Ltac sql_leaf :=
  first
    [ unfold_call
    | let w := fresh "w" in let H := fresh "H" in
      let Ht := fresh "Ht" in let Hp := fresh "Hp" in
      intros w H; destruct H as [Ht Hp]; unfold sqlPlanPending; exec;
      split; [assumption | rewrite ?lookup_insert_ne by discriminate; assumption] ].

(** For a SQL conversion the function leaves the [generatePlan] step as it
    found it, whatever the poll answers. *)
Lemma pollTransformationStatusUntilPlanReady_sql K env jobId w :
  transformationType (transformByQState w) = SQL_CONVERSION →
  jobPlanProgress (snd (pollTransformationStatusUntilPlanReady K env jobId w)) !! "generatePlan"
  = jobPlanProgress w !! "generatePlan" ∧
  transformationType
    (transformByQState (snd (pollTransformationStatusUntilPlanReady K env jobId w)))
  = SQL_CONVERSION.
Proof.
  intros Ht. run; reflect_tests; try congruence; split; reflexivity || assumption.
Qed.

Lemma pollTransformationStatusUntilPlanReady_keeps_sql K env jobId :
  Preserves sqlPlanPending (pollTransformationStatusUntilPlanReady K env jobId).
Proof.
  intros w [Ht Hp].
  destruct (pollTransformationStatusUntilPlanReady_sql K env jobId w Ht) as [E1 E2].
  split; [assumption | congruence].
Qed.

Lemma stages_keep_sql K env :
  Preserves sqlPlanPending
    (tryCatch (runStages K env) (transformationJobErrorHandler K env)).
Proof.
  preserves_with
    ltac:(first [ apply pollTransformationStatusUntilPlanReady_keeps_sql | sql_leaf ]).
Qed.

Lemma setTransformationToRunningState_sql w :
  transformationType (transformByQState w) = SQL_CONVERSION →
  sqlPlanPending (snd (setTransformationToRunningState w)).
Proof.
  intros Ht. split; [exact Ht |].
  unfold setTransformationToRunningState, setContextVariables. exec.
  rewrite lookup_insert_ne by discriminate. apply lookup_insert_eq.
Qed.

(** C9 — in a run whose transformation type is SQL_CONVERSION,
    [pollTransformationStatusUntilPlanReady] leaves the [generatePlan] step
    untouched, and at the end of the run that step is FAILED, whatever the
    collaborators answered: also when the run was reported SUCCEEDED or
    PARTIALLY_SUCCEEDED. *)
Theorem sql_conversion_plan_step_failed K env w :
  transformationType (transformByQState w) = SQL_CONVERSION →
  (∀ jobId,
     jobPlanProgress (snd (pollTransformationStatusUntilPlanReady K env jobId w))
       !! "generatePlan" = jobPlanProgress w !! "generatePlan") ∧
  jobPlanProgress (snd (startTransformByQ K env w)) !! "generatePlan"
  = Some StepProgress.Failed.
Proof.
  intros Ht. split.
  - intros jobId. now apply pollTransformationStatusUntilPlanReady_sql.
  - rewrite startTransformByQ_shape.
    set (w2 := snd (tryCatch _ _ _)).
    assert (H2 : sqlPlanPending w2).
    { apply stages_keep_sql. now apply setTransformationToRunningState_sql. }
    clearbody w2. destruct H2 as [_ Hp].
    rewrite cleanupTransformationJob_progress.
    rewrite (postTransformationJob_steps K env w2 "generatePlan")
      by (unfold planSteps; repeat constructor).
    rewrite Hp. reflexivity.
Qed.

Lemma sql_conversion_plan_step_failed_witness :
  let w' := snd (startTransformByQ Sample.constants Sample.happy
                   (Sample.idleWorld SQL_CONVERSION)) in
  reportedStatuses (trace w') = [SUCCEEDED] ∧
  jobPlanProgress w' !! "generatePlan" = Some StepProgress.Failed.
Proof.
  split; [vm_compute; reflexivity |].
  apply (sql_conversion_plan_step_failed Sample.constants Sample.happy
           (Sample.idleWorld SQL_CONVERSION)).
  reflexivity.
Defined.

(** ** C4: failures of the remote start *)

Lemma prefix_toLowerCase needle s :
  String.prefix needle s = true →
  String.prefix (Js.toLowerCase needle) (Js.toLowerCase s) = true.
Proof.
  revert needle. induction s as [| c s IH]; intros [| a needle]; cbn; try easy.
  destruct (ascii_dec a c) as [-> | Hne]; [| discriminate].
  intros H. destruct (ascii_dec (Js.lowerAscii c) (Js.lowerAscii c)); [| contradiction].
  now apply IH.
Qed.

Lemma includes_toLowerCase needle s :
  Js.includes needle s = true →
  Js.includes (Js.toLowerCase needle) (Js.toLowerCase s) = true.
Proof.
  induction s as [| c s IH]; cbn [Js.includes Js.toLowerCase].
  - rewrite !orb_false_r. apply (prefix_toLowerCase needle "").
  - intros H. apply orb_true_iff in H as [H | H]; apply orb_true_iff.
    + left. apply (prefix_toLowerCase needle (String c s) H).
    + right. now apply IH.
Qed.

(** A message that contains the quota phrase as written is classified as a
    quota failure. *)
Lemma quota_phrase_classified message :
  Js.includes "too many active running jobs" message = true →
  classifyStartFailure message = TOO_MANY_ACTIVE_JOBS.
Proof.
  intros H. apply includes_toLowerCase in H.
  unfold classifyStartFailure. cbv zeta.
  change (Js.toLowerCase "too many active running jobs")
    with "too many active running jobs" in H.
  now rewrite H.
Qed.

Lemma startTransformationJob_rejected K env uploadId w message :
  startJobResponse env = Rejected message →
  let r := startTransformationJob K env uploadId w in
  fst r = Thrown JobStartError ∧
  jobFailureErrorNotification (transformByQState (snd r))
  = Some (startFailureNotification K message) ∧
  jobFailureErrorChatMessage (transformByQState (snd r))
  = Some (startFailureChatMessage K message) ∧
  polls (snd r) = polls w.
Proof.
  intros Hr. cbn zeta.
  unfold startTransformationJob, startJob, await. rewrite Hr.
  run;
    unfold startFailureNotification, startFailureChatMessage, classifyStartFailure;
    cbv zeta;
    repeat match goal with H : Js.includes _ _ = _ |- _ => rewrite H end;
    repeat split; reflexivity.
Qed.

Lemma startTransformationJob_always_throws K env uploadId message :
  startJobResponse env = Rejected message →
  AlwaysThrows (startTransformationJob K env uploadId).
Proof.
  intros Hr w. exists JobStartError.
  now destruct (startTransformationJob_rejected K env uploadId w message Hr).
Qed.

Lemma stages_without_start_never_poll K env message c d :
  startJobResponse env = Rejected message →
  Preserves (fun w => polls w = c ∧ detached w = d)
    (tryCatch (runStages K env) (transformationJobErrorHandler K env)).
Proof.
  intros Hr. apply Preserves_tryCatch.
  - unfold runStages.
    apply Preserves_bind; [preserves_with ltac:(leaf_by assumption) | intros _].
    apply Preserves_bind; [preserves_with ltac:(leaf_by assumption) | intros uploadId].
    apply Preserves_bind_throws.
    + preserves_with ltac:(leaf_by assumption).
    + now apply startTransformationJob_always_throws with message.
  - intros e. preserves_with ltac:(leaf_by assumption).
Qed.

Lemma run_without_start_never_polls K env message w :
  startJobResponse env = Rejected message →
  let w' := snd (startTransformByQ K env w) in
  polls w' = polls w ∧ detached w' = detached w.
Proof.
  intros Hr. cbn zeta. rewrite startTransformByQ_shape.
  assert (P : Preserves (fun w0 => polls w0 = polls w ∧ detached w0 = detached w)
                cleanupTransformationJob)
    by preserves_with ltac:(leaf_by assumption).
  apply P.
  assert (Q : Preserves (fun w0 => polls w0 = polls w ∧ detached w0 = detached w)
                (postTransformationJob K env))
    by preserves_with ltac:(leaf_by assumption).
  apply Q.
  apply stages_without_start_never_poll with message; [assumption |].
  assert (R : Preserves (fun w0 => polls w0 = polls w ∧ detached w0 = detached w)
                setTransformationToRunningState)
    by preserves_with ltac:(leaf_by assumption).
  apply R. split; reflexivity.
Qed.




(** ** C10: the stop request of a run that has no job id yet *)

Lemma setTransformationToRunningState_resets_job_id w :
  let w1 := snd (setTransformationToRunningState w) in
  jobId (transformByQState w1) = "" ∧ status (transformByQState w1) = RUNNING.
Proof. split; reflexivity. Qed.

Lemma transformationJobErrorHandler_stops_job K env error w :
  status (transformByQState w) ≠ CANCELLED →
  trace (snd (transformationJobErrorHandler K env error w)) =
  ((match stopJobResponse env (countEvents isStopJob (trace w)) with
    | Resolved _ =>
        [Chat (errorThrown error);
         ShowErrorMessage
           (Js.nullish (jobFailureErrorNotification (transformByQState w))
              (failedToCompleteJobNotification K))]
    | Rejected _ => []
    end) ++ StopJob (jobId (transformByQState w)) :: trace w)%list.
Proof.
  intros Hs. unfold transformationJobErrorHandler.
  exec. rewrite bool_decide_eq_false_2 by assumption.
  run; reflexivity.
Qed.

Lemma stages_stop_empty_job_id K env w :
  failsBeforeJobId env → noStopBeforeJobId env →
  let w1 := snd (setTransformationToRunningState w) in
  let w2 := snd (tryCatch (runStages K env) (transformationJobErrorHandler K env) w1) in
  countEvents (isStopJobFor "") (trace w2) = S (countEvents (isStopJobFor "") (trace w)) ∧
  countEvents isStopJob (trace w2) = S (countEvents isStopJob (trace w)).
Proof.
  intros Hf (S1 & S2 & S3 & S4). cbn zeta.
  destruct Hf as [[m Hm] | [[m Hm] | [m Hm]]];
    run; split; reflexivity.
Qed.

(** C10 — a run that fails before the remote start has assigned a job id
    (the packaging, the upload or the start is rejected) and that the
    operator has not stopped: the job id was reset to [''] on entering the
    running state and nothing has assigned it since, so the error handler
    calls [stopJob('')], and that is the only stop request of the run. *)
Theorem early_failure_stops_empty_job_id K env w :
  failsBeforeJobId env → noStopBeforeJobId env →
  let w' := snd (startTransformByQ K env w) in
  jobId (transformByQState (snd (setTransformationToRunningState w))) = "" ∧
  countEvents (isStopJobFor "") (trace w') = S (countEvents (isStopJobFor "") (trace w)) ∧
  countEvents isStopJob (trace w') = S (countEvents isStopJob (trace w)).
Proof.
  intros Hf Hs. cbn zeta. split; [reflexivity |].
  rewrite startTransformByQ_shape.
  destruct (stages_stop_empty_job_id K env w Hf Hs) as [E1 E2]. cbn zeta in *.
  set (w2 := snd (tryCatch _ _ _)) in *. clearbody w2.
  assert (P : ∀ p c, Preserves (fun w0 => countEvents p (trace w0) = c)
                       (postTransformationJob K env) →
                     Preserves (fun w0 => countEvents p (trace w0) = c)
                       cleanupTransformationJob →
                     countEvents p (trace w2) = c →
                     countEvents p
                       (trace (snd (cleanupTransformationJob
                                      (snd (postTransformationJob K env w2))))) = c).
  { intros p c Hp Hc H. apply Hc, Hp, H. }
  split; apply P; try assumption; preserves_with ltac:(leaf_by assumption).
Qed.

Lemma early_failure_stops_empty_job_id_witness :
  let w' := snd (startTransformByQ Sample.constants Sample.uploadRejected
                   (Sample.idleWorld LANGUAGE_UPGRADE)) in
  failsBeforeJobId Sample.uploadRejected ∧
  noStopBeforeJobId Sample.uploadRejected ∧
  countEvents (isStopJobFor "") (trace w') = 1.
Proof.
  assert (F : failsBeforeJobId Sample.uploadRejected).
  { right. left. exists "connection reset". reflexivity. }
  assert (N : noStopBeforeJobId Sample.uploadRejected).
  { repeat split; reflexivity. }
  split; [exact F | split; [exact N |]].
  apply (early_failure_stops_empty_job_id Sample.constants Sample.uploadRejected
           (Sample.idleWorld LANGUAGE_UPGRADE) F N).
Defined.

(** ** C8: the failure texts after a poll failure *)

Lemma setGenericFailureUnlessSet_retains K w :
  let w' := snd (setGenericFailureUnlessSet K w) in
  fst (setGenericFailureUnlessSet K w) = Returned () ∧
  jobFailureErrorNotification (transformByQState w')
  = retained (jobFailureErrorNotification (transformByQState w))
      (failedToCompleteJobNotification K) ∧
  jobFailureErrorChatMessage (transformByQState w')
  = retained (jobFailureErrorChatMessage (transformByQState w))
      (failedToCompleteJobChatMessage K).
Proof.
  cbn zeta. unfold retained. run;
    repeat match goal with H : Js.truthy _ = _ |- _ => rewrite H end;
    repeat split; reflexivity.
Qed.

Lemma pollTransformationStatusUntilComplete_rejected K env jobId w message :
  pollResponse env validStatesForCheckingDownloadUrl (completionPolls w) = Rejected message →
  let r := pollTransformationStatusUntilComplete K env jobId w in
  fst r = Thrown PollJobError ∧
  jobFailureErrorNotification (transformByQState (snd r))
  = retained (jobFailureErrorNotification (transformByQState w))
      (failedToCompleteJobNotification K) ∧
  jobFailureErrorChatMessage (transformByQState (snd r))
  = retained (jobFailureErrorChatMessage (transformByQState w))
      (failedToCompleteJobChatMessage K).
Proof.
  intros Hr. cbn zeta. unfold retained, completionPolls in *. run;
    repeat match goal with H : Js.truthy _ = _ |- _ => rewrite H end;
    repeat split; reflexivity.
Qed.

Lemma pollTransformationStatusUntilPlanReady_rejected K env jobId w message :
  pollResponse env validStatesForPlanGenerated
    (countEvents (isPoll validStatesForPlanGenerated) (trace w)) = Rejected message →
  let r := pollTransformationStatusUntilPlanReady K env jobId w in
  (∃ e, fst r = Thrown e) ∧
  jobFailureErrorNotification (transformByQState (snd r))
  = retained (jobFailureErrorNotification (transformByQState w))
      (failedToCompleteJobNotification K) ∧
  jobFailureErrorChatMessage (transformByQState (snd r))
  = retained (jobFailureErrorChatMessage (transformByQState w))
      (failedToCompleteJobChatMessage K).
Proof.
  intros Hr. cbn zeta. unfold retained. run;
    repeat match goal with H : Js.truthy _ = _ |- _ => rewrite H end;
    (split; [eexists; reflexivity |]); split; reflexivity.
Qed.

Section Retained.

Context (K : Constants) (env : Env) (notification chat : string).
Hypothesis notification_set : Js.truthy (Some notification) = true.
Hypothesis chat_set : Js.truthy (Some chat) = true.

Lemma setGenericFailureUnlessSet_keeps :
  Preserves (failureTextsAre notification chat) (setGenericFailureUnlessSet K).
Proof.
  intros w [Hn Hc].
  destruct (setGenericFailureUnlessSet_retains K w) as (_ & En & Ec).
  cbn zeta in *. unfold failureTextsAre, retained in *.
  rewrite En, Ec, Hn, Hc, notification_set, chat_set. split; reflexivity.
Qed.

Lemma transformationJobErrorHandler_keeps error :
  Preserves (failureTextsAre notification chat) (transformationJobErrorHandler K env error).
Proof.
  intros w [Hn Hc]. unfold failureTextsAre in *.
  run; rewrite ?Hn, ?Hc; split; reflexivity.
Qed.

Ltac texts_leaf :=
  first
    [ apply setGenericFailureUnlessSet_keeps
    | apply transformationJobErrorHandler_keeps
    | unfold_call
    | let w := fresh "w" in let H := fresh "H" in
      intros w H; unfold failureTextsAre in *; exec; repeat (split_stuck; exec);
      assumption ].

Lemma stages_after_start_keep_texts jobId :
  Preserves (failureTextsAre notification chat)
    (tryCatch
       (pollTransformationStatusUntilPlanReady K env jobId;;
        humanInTheLoopRetryLogic K env jobId)
       (transformationJobErrorHandler K env)).
Proof. preserves_with texts_leaf. Qed.

Lemma postTransformationJob_keeps_texts :
  Preserves (failureTextsAre notification chat) (postTransformationJob K env).
Proof. preserves_with texts_leaf. Qed.

End Retained.

(** C8 — when the plan-ready poll or the completion poll fails, the generic
    "job did not complete" notification and chat message are written only
    into a text that is still unset or empty; a text that was already set is
    kept. Texts that are set stay as they are through everything that
    follows the remote start: both polls, the human-in-the-loop branch,
    finalization, the error handler and the report at the end of the run. *)
Theorem poll_failure_keeps_failure_texts K env jobId w message :
  (pollResponse env validStatesForPlanGenerated
     (countEvents (isPoll validStatesForPlanGenerated) (trace w)) = Rejected message →
   let r := pollTransformationStatusUntilPlanReady K env jobId w in
   (∃ e, fst r = Thrown e) ∧
   jobFailureErrorNotification (transformByQState (snd r))
   = retained (jobFailureErrorNotification (transformByQState w))
       (failedToCompleteJobNotification K) ∧
   jobFailureErrorChatMessage (transformByQState (snd r))
   = retained (jobFailureErrorChatMessage (transformByQState w))
       (failedToCompleteJobChatMessage K)) ∧
  (pollResponse env validStatesForCheckingDownloadUrl (completionPolls w)
   = Rejected message →
   let r := pollTransformationStatusUntilComplete K env jobId w in
   fst r = Thrown PollJobError ∧
   jobFailureErrorNotification (transformByQState (snd r))
   = retained (jobFailureErrorNotification (transformByQState w))
       (failedToCompleteJobNotification K) ∧
   jobFailureErrorChatMessage (transformByQState (snd r))
   = retained (jobFailureErrorChatMessage (transformByQState w))
       (failedToCompleteJobChatMessage K)) ∧
  (∀ notification chat,
     Js.truthy (Some notification) = true → Js.truthy (Some chat) = true →
     Preserves (failureTextsAre notification chat)
       (tryCatch
          (pollTransformationStatusUntilPlanReady K env jobId;;
           humanInTheLoopRetryLogic K env jobId)
          (transformationJobErrorHandler K env)) ∧
     Preserves (failureTextsAre notification chat) (postTransformationJob K env)).
Proof.
  split; [| split].
  - apply pollTransformationStatusUntilPlanReady_rejected.
  - apply pollTransformationStatusUntilComplete_rejected.
  - intros notification chat Hn Hc. split.
    + now apply stages_after_start_keep_texts.
    + now apply postTransformationJob_keeps_texts.
Qed.

Lemma poll_failure_keeps_failure_texts_witness :
  let w := W.setJob
             (JobState.setJobFailureErrorNotification (Some "Build failed remotely")
                (transformByQState (Sample.midRun RUNNING)))
             (Sample.midRun RUNNING) in
  let r := pollTransformationStatusUntilComplete Sample.constants Sample.pollsRejected "J1" w in
  pollResponse Sample.pollsRejected validStatesForCheckingDownloadUrl (completionPolls w)
  = Rejected "timed out" ∧
  fst r = Thrown PollJobError ∧
  jobFailureErrorNotification (transformByQState (snd r)) = Some "Build failed remotely" ∧
  jobFailureErrorChatMessage (transformByQState (snd r))
  = Some (failedToCompleteJobChatMessage Sample.constants).
Proof.
  cbn zeta. split; [reflexivity |].
  apply (poll_failure_keeps_failure_texts Sample.constants Sample.pollsRejected "J1"
           (W.setJob
              (JobState.setJobFailureErrorNotification (Some "Build failed remotely")
                 (transformByQState (Sample.midRun RUNNING)))
              (Sample.midRun RUNNING))
           "timed out").
  reflexivity.
Defined.

(** ** C2: the outcome notification of a human-in-the-loop attempt *)

(** Counterexample to C2 as stated — the operator picks a version, the
    dependencies are uploaded, and the remote service rejects the COMPLETED
    resume: the [catch] block then sends REJECTED as well, so both outcome
    notifications are invoked in one attempt. *)
Lemma rejected_completed_resume_sends_both :
  let w := Sample.midRun RUNNING in
  let r := finishHumanInTheLoop Sample.resumeCompletedRejected (Some "2.0.0") w in
  fst r = Returned false ∧
  countEvents (isResumeOf "J1" "COMPLETED") (trace (snd r)) = 1 ∧
  countEvents (isResumeOf "J1" "REJECTED") (trace (snd r)) = 1 ∧
  List.filter isResume (rev (trace (snd r)))
  = [ResumeTransformationJob "J1" "COMPLETED"; ResumeTransformationJob "J1" "REJECTED"].
Proof. vm_compute. repeat split; reflexivity. Qed.

Lemma initiateHumanInTheLoopPrompt_resumes K env jobId w :
  let r := initiateHumanInTheLoopPrompt K env jobId w in
  resumes "COMPLETED" (snd r) = resumes "COMPLETED" w ∧
  match fst r with
  | Returned false =>
      countEvents isResume (trace (snd r)) = countEvents isResume (trace w)
  | _ =>
      countEvents (isResumeOf jobId "REJECTED") (trace (snd r))
      = S (countEvents (isResumeOf jobId "REJECTED") (trace w)) ∧
      countEvents isResume (trace (snd r)) = S (countEvents isResume (trace w))
  end.
Proof. cbn zeta. run; repeat split; reflexivity. Qed.

Lemma finishHumanInTheLoop_resumes env selectedDependency w :
  let jobId := jobId (transformByQState w) in
  let r := finishHumanInTheLoop env selectedDependency w in
  let completed w0 := countEvents (isResumeOf jobId "COMPLETED") (trace w0) in
  let rejected w0 := countEvents (isResumeOf jobId "REJECTED") (trace w0) in
  match fst r with
  | Returned true =>
      completed (snd r) = S (completed w) ∧ rejected (snd r) = rejected w ∧
      countEvents isResume (trace (snd r)) = S (countEvents isResume (trace w))
  | _ =>
      rejected (snd r) = S (rejected w) ∧
      (completed (snd r) = completed w ∧
       countEvents isResume (trace (snd r)) = S (countEvents isResume (trace w))
       ∨
       completed (snd r) = S (completed w) ∧
       countEvents isResume (trace (snd r)) = S (S (countEvents isResume (trace w))) ∧
       ∃ message,
         resumeResponse env (countEvents isResume (trace w)) = Rejected message)
  end.
Proof.
  cbn zeta. run; repeat split;
    first [ reflexivity
          | left; split; reflexivity
          | right; repeat split; eauto ].
Qed.

(** C2 (amended) — an attempt that ends in [initiateHumanInTheLoopPrompt]
    without a prompt (it returns the failure indicator or throws) invokes
    [resumeTransformationJob(jobId, 'REJECTED')] exactly once and never
    COMPLETED; an attempt that shows the prompt invokes neither there. In
    [finishHumanInTheLoop] a successful attempt invokes COMPLETED once and
    REJECTED never; a failed attempt invokes REJECTED exactly once, and
    COMPLETED was invoked before it exactly when the failure is the rejection
    of the COMPLETED resume itself. *)
Theorem hil_attempt_outcome_notifications K env w :
  (∀ jobId,
     let r := initiateHumanInTheLoopPrompt K env jobId w in
     resumes "COMPLETED" (snd r) = resumes "COMPLETED" w ∧
     match fst r with
     | Returned false =>
         countEvents isResume (trace (snd r)) = countEvents isResume (trace w)
     | _ =>
         countEvents (isResumeOf jobId "REJECTED") (trace (snd r))
         = S (countEvents (isResumeOf jobId "REJECTED") (trace w)) ∧
         countEvents isResume (trace (snd r)) = S (countEvents isResume (trace w))
     end) ∧
  (∀ selectedDependency,
     let jobId := jobId (transformByQState w) in
     let r := finishHumanInTheLoop env selectedDependency w in
     let completed w0 := countEvents (isResumeOf jobId "COMPLETED") (trace w0) in
     let rejected w0 := countEvents (isResumeOf jobId "REJECTED") (trace w0) in
     match fst r with
     | Returned true =>
         completed (snd r) = S (completed w) ∧ rejected (snd r) = rejected w ∧
         countEvents isResume (trace (snd r)) = S (countEvents isResume (trace w))
     | _ =>
         rejected (snd r) = S (rejected w) ∧
         (completed (snd r) = completed w ∧
          countEvents isResume (trace (snd r)) = S (countEvents isResume (trace w))
          ∨
          completed (snd r) = S (completed w) ∧
          countEvents isResume (trace (snd r)) = S (S (countEvents isResume (trace w))) ∧
          ∃ message,
            resumeResponse env (countEvents isResume (trace w)) = Rejected message)
     end).
Proof.
  split.
  - intros jobId. apply initiateHumanInTheLoopPrompt_resumes.
  - intros selectedDependency. apply finishHumanInTheLoop_resumes.
Qed.

(** ** C6: errors of the human-in-the-loop branch *)


Lemma initiateHumanInTheLoopPrompt_contains K env jobId w :
  preparationFails K
    (hilPreparation env (countEvents isGetTransformationSteps (trace w))) = true →
  resumeResponse env (countEvents isResume (trace w)) = Resolved () →
  let r := initiateHumanInTheLoopPrompt K env jobId w in
  fst r = Returned true ∧
  countEvents (isResumeOf jobId "REJECTED") (trace (snd r))
  = S (countEvents (isResumeOf jobId "REJECTED") (trace w)) ∧
  countEvents isCleanUpArtifacts (trace (snd r))
  = S (countEvents isCleanUpArtifacts (trace w)) ∧
  transformByQState (snd r) = transformByQState w ∧
  jobPlanProgress (snd r) = jobPlanProgress w ∧
  detached (snd r) = detached w.
Proof.
  intros Hp Hr. cbn zeta.
  destruct (hilPreparation env _) eqn:E; cbn [preparationFails] in Hp;
    run; repeat split; reflexivity.
Qed.

Lemma humanInTheLoopRetryLogic_reenters K env jobId w :
  preparationFails K
    (hilPreparation env (countEvents isGetTransformationSteps (trace w))) = true →
  resumeResponse env (countEvents isResume (trace w)) = Resolved () →
  pollResponse env validStatesForCheckingDownloadUrl (completionPolls w) = Resolved "PAUSED" →
  operatorStops env (Polling validStatesForCheckingDownloadUrl (completionPolls w)) = false →
  let r := humanInTheLoopRetryLogic K env jobId w in
  fst r = Returned () ∧
  transformByQState (snd r) = transformByQState w ∧
  jobPlanProgress (snd r) = jobPlanProgress w ∧
  detached (snd r) = (detached w ++ [RetryLogic jobId])%list ∧
  completionPolls (snd r) = S (completionPolls w) ∧
  countEvents isStopJob (trace (snd r)) = countEvents isStopJob (trace w) ∧
  countEvents isGetTransformationSteps (trace (snd r))
  = S (countEvents isGetTransformationSteps (trace w)) ∧
  countEvents isResume (trace (snd r)) = S (countEvents isResume (trace w)).
Proof.
  intros Hp Hr Hpoll Hstop. cbn zeta. unfold completionPolls in *.
  destruct (hilPreparation env _) eqn:E; cbn [preparationFails] in Hp;
    run; repeat split; reflexivity.
Qed.

Lemma humanInTheLoopRetryLogic_finalizes K env jobId w st :
  pollResponse env validStatesForCheckingDownloadUrl (completionPolls w) = Resolved st →
  st ≠ "PAUSED" →
  operatorStops env (Polling validStatesForCheckingDownloadUrl (completionPolls w)) = false →
  stopJobResponse env (countEvents isStopJob (trace w)) = Resolved () →
  let r := humanInTheLoopRetryLogic K env jobId w in
  fst r = Returned () ∧
  isTerminal (status (transformByQState (snd r))) = true ∧
  detached (snd r) = detached w ∧
  completionPolls (snd r) = S (completionPolls w).
Proof.
  intros Hpoll Hst Hstop Hsj. cbn zeta. unfold completionPolls in *.
  unfold humanInTheLoopRetryLogic, pollTransformationStatusUntilComplete,
    pollTransformationJob, await, suspended.
  exec. rewrite Hstop, Hpoll. exec.
  rewrite (bool_decide_eq_false_2 (st = "PAUSED")) by assumption.
  run; repeat split; reflexivity.
Qed.

(** The detached retry loop ends: after [n] pauses that each end in a
    contained error, the next poll finalizes the job. *)
Lemma retry_loop_reaches_terminal_status K env jobId st n :
  ∀ w,
    detached w = [RetryLogic jobId] →
    pausesThenYields K env w n st →
    let w' := eventLoop K env (S n) w in
    isTerminal (status (transformByQState w')) = true ∧
    detached w' = [] ∧
    completionPolls w' = completionPolls w + S n.
Proof.
  induction n as [| n IH]; intros w Hd (Hpause & Hpoll & Hst & Hstop & Hsj).
  - rewrite Nat.add_0_r in Hpoll, Hstop.
    cbn [eventLoop]. rewrite Hd. cbn [runTask].
    pose proof (humanInTheLoopRetryLogic_finalizes K env jobId (W.setDetached [] w) st
                  Hpoll Hst Hstop Hsj) as F.
    cbn zeta in F. destruct F as (F1 & F2 & F3 & F4).
    destruct (humanInTheLoopRetryLogic K env jobId (W.setDetached [] w)) as [[[]|e] w1];
      cbn [fst snd] in *; [| discriminate].
    repeat split; try assumption.
    rewrite F4. unfold completionPolls. cbn [trace W.setDetached]. lia.
  - destruct (Hpause 0 (Nat.lt_0_succ n)) as (P1 & P2 & P3 & P4).
    rewrite Nat.add_0_r in P1, P2, P3, P4.
    change (eventLoop K env (S (S n)) w) with
      (match detached w with
       | [] => w
       | t :: rest =>
           match runTask K env t (W.setDetached rest w) with
           | (Returned _, w1) => eventLoop K env (S n) w1
           | (Thrown e, w1) =>
               eventLoop K env (S n) (W.setTrace (UnhandledRejection e :: trace w1) w1)
           end
       end).
    rewrite Hd. cbn [runTask].
    pose proof (humanInTheLoopRetryLogic_reenters K env jobId (W.setDetached [] w)
                  P3 P4 P1 P2) as R.
    cbn zeta in R. destruct R as (R1 & R2 & R3 & R4 & R5 & R6 & R7 & R8).
    destruct (humanInTheLoopRetryLogic K env jobId (W.setDetached [] w)) as [[[]|e] w1];
      cbn [fst snd] in *; [| discriminate].
    unfold completionPolls in *. cbn [trace W.setDetached detached app] in *.
    assert (Hy : pausesThenYields K env w1 n st).
    { unfold pausesThenYields, completionPolls. rewrite R5, R6, R7, R8.
      split; [| split; [| split; [| split]]].
      - intros i Hi. destruct (Hpause (S i) (proj1 (Nat.succ_lt_mono i n) Hi))
          as (Q1 & Q2 & Q3 & Q4).
        rewrite Nat.add_succ_r in Q1, Q2, Q3, Q4. cbn [Nat.add].
        repeat split; assumption.
      - rewrite Nat.add_succ_r in Hpoll. exact Hpoll.
      - assumption.
      - rewrite Nat.add_succ_r in Hstop. exact Hstop.
      - assumption. }
    destruct (IH w1 R4 Hy) as (T1 & T2 & T3). cbn zeta in *.
    repeat split; try assumption.
    rewrite T3. unfold completionPolls. rewrite R5. lia.
Qed.



(** ** What a run is reported as *)

Lemma postTransformationJob_reports K env w :
  reportedStatuses (trace (snd (postTransformationJob K env w)))
  = status (transformByQState w) :: reportedStatuses (trace w).
Proof.
  unfold postTransformationJob.
  erewrite bind_returned by reflexivity.
  do 4 (erewrite bind_returned by apply failUnlessSucceeded_eq).
  run; reflexivity.
Qed.

Lemma cleanupTransformationJob_keeps_reports w :
  reportedStatuses (trace (snd (cleanupTransformationJob w))) = reportedStatuses (trace w).
Proof. run; reflexivity. Qed.

(** The report of a run carries the status that the stages and the error
    handler left behind. *)
Lemma startTransformByQ_reports K env w :
  let w2 := snd (tryCatch (runStages K env) (transformationJobErrorHandler K env)
                   (snd (setTransformationToRunningState w))) in
  reportedStatuses (trace (snd (startTransformByQ K env w)))
  = status (transformByQState w2) :: reportedStatuses (trace w2).
Proof.
  cbn zeta. rewrite startTransformByQ_shape.
  now rewrite cleanupTransformationJob_keeps_reports, postTransformationJob_reports.
Qed.

(** ** C3: cancellation against later dispositions *)

(** The error handler leaves a cancelled run CANCELLED: no stop request, no
    FAILED status. *)
Lemma transformationJobErrorHandler_keeps_cancelled K env error w :
  status (transformByQState w) = CANCELLED →
  let r := transformationJobErrorHandler K env error w in
  fst r = Returned () ∧
  status (transformByQState (snd r)) = CANCELLED ∧
  polledJobStatus (transformByQState (snd r)) = "CANCELLED" ∧
  countEvents isStopJob (trace (snd r)) = countEvents isStopJob (trace w).
Proof.
  intros Hc. cbn zeta. unfold transformationJobErrorHandler. exec.
  rewrite Hc. run; repeat split; reflexivity.
Qed.

(** [finalizeTransformationJob] does not look at the status it overwrites. *)
Lemma finalizeTransformationJob_overwrites_status K w :
  status (transformByQState (snd (finalizeTransformationJob K "COMPLETED" w))) = SUCCEEDED ∧
  status (transformByQState (snd (finalizeTransformationJob K "PARTIALLY_COMPLETED" w)))
  = PARTIALLY_SUCCEEDED.
Proof. split; reflexivity. Qed.

(** C3 — evaluation at the failing input: the operator stops the job while
    the last completion poll is in flight and that poll reports COMPLETED.
    The stop command sets CANCELLED and sends the stop request;
    [finalizeTransformationJob] then sets SUCCEEDED over it, and the run is
    reported SUCCEEDED. On a world that is already CANCELLED,
    [finalizeTransformByQ] with COMPLETED leaves SUCCEEDED. *)
Theorem cancelled_run_is_reported_succeeded :
  let w' := snd (startTransformByQ Sample.constants Sample.stopDuringLastPoll
                   (Sample.idleWorld LANGUAGE_UPGRADE)) in
  remoteJobEvents w'
  = [StartJob "U1";
     PollTransformationJob "J1" validStatesForPlanGenerated;
     PollTransformationJob "J1" validStatesForCheckingDownloadUrl;
     Telemetry (codeTransform_jobIsCancelledByUser "J1");
     StopJob "J1"] ∧
  reportedStatuses (trace w') = [SUCCEEDED] ∧
  status (transformByQState (Sample.midRun CANCELLED)) = CANCELLED ∧
  status (transformByQState
            (snd (finalizeTransformByQ Sample.constants Sample.happy "COMPLETED"
                    (Sample.midRun CANCELLED)))) = SUCCEEDED.
Proof. vm_compute. repeat split; reflexivity. Qed.

(** ** C5: cancellation around the submission *)

(** A stop that arrives while the payload is uploaded is seen by the check
    that follows the upload: no start call is issued and the run is reported
    CANCELLED. *)
Lemma stop_during_upload_skips_start K env w payload :
  zipCodeResponse env = Resolved payload →
  operatorStops env UploadingPayload = true →
  let w' := snd (startTransformByQ K env w) in
  countEvents isStartJob (trace w') = countEvents isStartJob (trace w) ∧
  polls w' = polls w ∧
  reportedStatuses (trace w') = CANCELLED :: reportedStatuses (trace w).
Proof.
  intros Hz Hs. cbn zeta.
  rewrite startTransformByQ_reports. rewrite startTransformByQ_shape.
  set (w2 := snd (tryCatch _ _ _)).
  assert (H2 : countEvents isStartJob (trace w2) = countEvents isStartJob (trace w) ∧
               polls w2 = polls w ∧
               status (transformByQState w2) = CANCELLED ∧
               reportedStatuses (trace w2) = reportedStatuses (trace w)).
  { subst w2. run; repeat split; reflexivity. }
  clearbody w2. destruct H2 as (A & B & C & D).
  assert (P : Preserves (fun w0 => countEvents isStartJob (trace w0)
                                   = countEvents isStartJob (trace w) ∧ polls w0 = polls w)
                (postTransformationJob K env))
    by preserves_with ltac:(leaf_by assumption).
  assert (Q : Preserves (fun w0 => countEvents isStartJob (trace w0)
                                   = countEvents isStartJob (trace w) ∧ polls w0 = polls w)
                cleanupTransformationJob)
    by preserves_with ltac:(leaf_by assumption).
  destruct (Q _ (P w2 (conj A B))) as [A' B'].
  rewrite C, D. repeat split; assumption.
Qed.

(** A stop that arrives while the job is started, or during the cooldown
    that follows the start, is seen by the check after that cooldown: no poll
    is issued and the run is reported CANCELLED. *)
Lemma stop_during_submission_skips_polling K env w payload uploadId :
  zipCodeResponse env = Resolved payload →
  uploadPayloadResponse env = Resolved uploadId →
  operatorStops env ZippingCode = false →
  operatorStops env UploadingPayload = false →
  operatorStops env UploadCooldown = false →
  operatorStops env StartingJob = true ∨
  (∃ jobId, startJobResponse env = Resolved jobId) ∧ operatorStops env StartCooldown = true →
  let w' := snd (startTransformByQ K env w) in
  polls w' = polls w ∧
  reportedStatuses (trace w') = CANCELLED :: reportedStatuses (trace w).
Proof.
  intros Hz Hu S1 S2 S3 Hs. cbn zeta.
  rewrite startTransformByQ_reports. rewrite startTransformByQ_shape.
  set (w2 := snd (tryCatch _ _ _)).
  assert (H2 : polls w2 = polls w ∧
               status (transformByQState w2) = CANCELLED ∧
               reportedStatuses (trace w2) = reportedStatuses (trace w)).
  { subst w2. destruct Hs as [S4 | [[jobId Hj] S5]];
      run; repeat split; reflexivity. }
  clearbody w2. destruct H2 as (B & C & D).
  assert (P : Preserves (fun w0 => polls w0 = polls w) (postTransformationJob K env))
    by preserves_with ltac:(leaf_by assumption).
  assert (Q : Preserves (fun w0 => polls w0 = polls w) cleanupTransformationJob)
    by preserves_with ltac:(leaf_by assumption).
  rewrite C, D. split; [| reflexivity].
  apply Q, P, B.
Qed.

(** C5 — evaluation at the failing input: the operator stops the job during
    the cooldown that follows the upload, after the cancellation check of
    [preTransformationUploadCode] has passed. The stop request goes out with
    the empty job id, the start call is issued all the same, and only the
    check after the start keeps the run from polling; the run is reported
    CANCELLED. *)
Theorem stop_during_upload_cooldown_still_starts_job :
  let w' := snd (startTransformByQ Sample.constants Sample.stopDuringUploadCooldown
                   (Sample.idleWorld LANGUAGE_UPGRADE)) in
  remoteJobEvents w'
  = [Telemetry (codeTransform_jobIsCancelledByUser "");
     StopJob "";
     StartJob "U1"] ∧
  countEvents isStartJob (trace w') = 1 ∧
  polls w' = 0 ∧
  reportedStatuses (trace w') = [CANCELLED].
Proof. vm_compute. repeat split; reflexivity. Qed.

(** * Further properties of the file *)

(** The symbolic execution also computes the form setters and the further
    observations. *)
Ltac exec_state ::=
  cbv beta iota zeta delta
      [mbind mret Async_bind Async_ret throw tryCatch tryFinally getWorld getJob modifyJob
       emit callsSoFar settle fst snd
       executeCommand showInformationMessage showErrorMessage fire telemetryEmit
       setContext setProgress setCodeTransformMetaDataField resetCodeTransformMetaDataField
       spawn setInterval clearInterval cleanUpArtifacts
       W.setJob W.setProgress W.setContext W.setTimers W.setMetaData W.setDetached W.setTrace
       transformByQState jobPlanProgress context timers codeTransformMetaData detached trace
       JobState.setStatus JobState.setJobId JobState.setPolledJobStatus
       JobState.setJobFailureErrorNotification JobState.setJobFailureErrorChatMessage
       JobState.setPayloadFilePath JobState.setPreBuildLogFilePath JobState.setIntervalId
       JobState.setHasSeenTransforming JobState.setToRunning JobState.setToSucceeded
       JobState.setToPartiallySucceeded JobState.setToFailed JobState.setToCancelled
       JobState.setJobDefaults
       JobState.isRunning JobState.isCancelled JobState.isSucceeded JobState.isPartiallySucceeded
       status jobId polledJobStatus transformationType sourceJDKVersion targetJDKVersion
       jobFailureErrorNotification jobFailureErrorChatMessage payloadFilePath
       preBuildLogFilePath intervalId hasSeenTransforming
       cleanups polls completionPolls resumes errorMessage runTask
       JobForm.setTransformationType JobForm.setSourceJDKVersion JobForm.setTargetJDKVersion
       negb andb orb] in *.

Ltac exec ::=
  exec_state;
  cbn [countEvents isStopJob isResume isResumeWith isResumeOf isPoll isAnyPoll isStartJob
       isGetTransformationSteps isApplySelectedDependency isPrompt isClearInterval
       isStopJobFor isCleanUpArtifacts reportedStatuses Nat.add eventLoop app
       isZipCode isUploadPayload isSleepOf isRmSyncOf isStartReview isShowErrorMessage
       isErrorThrownOf isSelectionUploaded reportedResults hilResults
       finishedMessages] in *;
  exec_state.


(** ** stopTransformByQ *)

(** X1 — [stopTransformByQ] never throws, also when the stop request is
    rejected. On a RUNNING job it sets CANCELLED, records the polled status,
    hides the stop button, sends exactly one stop request for the given job
    id and shows one notification; on any other status it sends nothing and
    leaves the state as it is. *)
Theorem stopTransformByQ_acts_on_running_job_only K env jobId w :
  let r := stopTransformByQ K env jobId w in
  fst r = Returned () ∧
  if bool_decide (status (transformByQState w) = RUNNING) then
    status (transformByQState (snd r)) = CANCELLED ∧
    polledJobStatus (transformByQState (snd r)) = "CANCELLED" ∧
    context (snd r) !! "gumby.isStopButtonAvailable" = Some false ∧
    countEvents (isStopJobFor jobId) (trace (snd r))
    = S (countEvents (isStopJobFor jobId) (trace w)) ∧
    countEvents isStopJob (trace (snd r)) = S (countEvents isStopJob (trace w)) ∧
    countEvents isShowErrorMessage (trace (snd r))
    = S (countEvents isShowErrorMessage (trace w))
  else
    countEvents isStopJob (trace (snd r)) = countEvents isStopJob (trace w) ∧
    W.setTrace [] (snd r) = W.setTrace [] w.
Proof.
  cbn zeta. run; repeat split; try reflexivity; apply lookup_insert_eq.
Qed.

(** X2 — a second stop command changes nothing: whatever the first one
    found, the second sends no stop request and leaves the state as the
    first left it. *)
Theorem stopTransformByQ_twice_stops_once K env jobId jobId' w :
  let w1 := snd (stopTransformByQ K env jobId w) in
  let w2 := snd (stopTransformByQ K env jobId' w1) in
  countEvents isStopJob (trace w2) = countEvents isStopJob (trace w1) ∧
  W.setTrace [] w2 = W.setTrace [] w1.
Proof.
  cbn zeta.
  assert (Hs : status (transformByQState (snd (stopTransformByQ K env jobId w))) ≠ RUNNING).
  { run; try discriminate. cbn. eapply bool_decide_eq_false; eassumption. }
  revert Hs. generalize (snd (stopTransformByQ K env jobId w)). intros w1 Hs.
  unfold stopTransformByQ. exec. rewrite (bool_decide_eq_false_2 _ Hs).
  run; split; reflexivity.
Qed.

(** ** preTransformationUploadCode *)

(** X3 — called on a cancelled job, [preTransformationUploadCode] throws the
    cancellation error before anything is packaged or uploaded, and leaves
    the job state alone. *)
Theorem preTransformationUploadCode_cancelled K env w :
  status (transformByQState w) = CANCELLED →
  let r := preTransformationUploadCode K env w in
  fst r = Thrown TransformByQStoppedError ∧
  countEvents isZipCode (trace (snd r)) = countEvents isZipCode (trace w) ∧
  countEvents isUploadPayload (trace (snd r)) = countEvents isUploadPayload (trace w) ∧
  transformByQState (snd r) = transformByQState w.
Proof.
  intros Hc. cbn zeta. unfold preTransformationUploadCode, throwIfCancelled.
  exec. rewrite Hc. run; repeat split; reflexivity.
Qed.

Lemma preTransformationUploadCode_cancelled_witness :
  fst (preTransformationUploadCode Sample.constants Sample.happy (Sample.midRun CANCELLED))
  = Thrown TransformByQStoppedError.
Proof.
  apply (preTransformationUploadCode_cancelled Sample.constants Sample.happy
           (Sample.midRun CANCELLED)).
  reflexivity.
Defined.

(** X4 — when the packaging or the upload is rejected,
    [preTransformationUploadCode] writes the upload failure texts with the
    collaborator's message, tells the chat about a [ModuleUploadError] once,
    skips the cooldown and rethrows the collaborator's own error. *)
Theorem preTransformationUploadCode_rejected K env w message :
  status (transformByQState w) ≠ CANCELLED →
  zipCodeResponse env = Rejected message ∨
  (∃ payload, zipCodeResponse env = Resolved payload) ∧
  uploadPayloadResponse env = Rejected message →
  let r := preTransformationUploadCode K env w in
  fst r = Thrown (ExternalError message) ∧
  jobFailureErrorNotification (transformByQState (snd r))
  = Some (Js.template2 (failedToUploadProjectNotification K) message) ∧
  jobFailureErrorChatMessage (transformByQState (snd r))
  = Some (Js.template2 (failedToUploadProjectChatMessage K) message) ∧
  countEvents (isErrorThrownOf ModuleUploadError) (trace (snd r))
  = S (countEvents (isErrorThrownOf ModuleUploadError) (trace w)) ∧
  countEvents (isSleepOf 2000) (trace (snd r)) = countEvents (isSleepOf 2000) (trace w).
Proof.
  intros Hc Hr. cbn zeta. unfold preTransformationUploadCode, throwIfCancelled.
  exec. rewrite (bool_decide_eq_false_2 _ Hc).
  destruct Hr as [Hz | [[payload Hz] Hu]]; run; repeat split; reflexivity.
Qed.

Lemma preTransformationUploadCode_rejected_witness :
  fst (preTransformationUploadCode Sample.constants Sample.uploadRejected
         (Sample.midRun RUNNING))
  = Thrown (ExternalError "connection reset").
Proof.
  apply (preTransformationUploadCode_rejected Sample.constants Sample.uploadRejected
           (Sample.midRun RUNNING) "connection reset").
  - discriminate.
  - right. split; [exists "payload.zip" |]; reflexivity.
Defined.

(** ** pollTransformationStatusUntilPlanReady *)



(** ** The human-in-the-loop functions *)

(** X6 — the bookkeeping of [finishHumanInTheLoop] is the same on every
    path. It emits exactly one human-in-the-loop telemetry event, whose
    result is Pass exactly when the function returns [true]; it cleans up
    the artifacts exactly once; it leaves exactly one detached call of
    [humanInTheLoopRetryLogic] for the stored job id when it returns, and
    none when it throws; and it never writes the job state. *)
Theorem finishHumanInTheLoop_bookkeeping env selectedDependency w :
  let r := finishHumanInTheLoop env selectedDependency w in
  hilResults (trace (snd r))
  = (match fst r with Returned true => Pass | _ => Fail end) :: hilResults (trace w) ∧
  countEvents isCleanUpArtifacts (trace (snd r))
  = S (countEvents isCleanUpArtifacts (trace w)) ∧
  detached (snd r)
  = (detached w ++ match fst r with
                   | Returned _ => [RetryLogic (jobId (transformByQState w))]
                   | Thrown _ => []
                   end)%list ∧
  transformByQState (snd r) = transformByQState w.
Proof.
  cbn zeta. run; repeat split; try reflexivity; symmetry; apply app_nil_r.
Qed.

(** X7 — [finishHumanInTheLoop] returns [true] exactly when a non-empty
    version was selected, the dependency was built and uploaded, and the
    COMPLETED resume was answered; the chat is told that the selection was
    uploaded exactly when the upload went through. Without a selection (none,
    or the empty string) nothing is applied, built or uploaded. *)
Theorem finishHumanInTheLoop_succeeds_iff env selectedDependency w :
  let r := finishHumanInTheLoop env selectedDependency w in
  let selected := Js.truthy selectedDependency in
  let uploaded :=
    selected &&
    match hilCompletion env (countEvents isApplySelectedDependency (trace w)) with
    | DependencyUploaded => true
    | _ => false
    end in
  let resumed :=
    match resumeResponse env (countEvents isResume (trace w)) with
    | Resolved _ => true
    | Rejected _ => false
    end in
  match fst r with Returned true => true | _ => false end = uploaded && resumed ∧
  countEvents isSelectionUploaded (trace (snd r))
  = (if uploaded then 1 else 0) + countEvents isSelectionUploaded (trace w) ∧
  countEvents isApplySelectedDependency (trace (snd r))
  = (if selected then 1 else 0) + countEvents isApplySelectedDependency (trace w).
Proof.
  cbn zeta. unfold Js.truthy. run; repeat split; reflexivity.
Qed.

(** X8 — the bookkeeping of [initiateHumanInTheLoopPrompt] is the same on
    every path: it waits one second and then emits exactly one
    human-in-the-loop telemetry event, whose result is Fail also when the
    prompt was shown. The operator is prompted exactly when the function
    returns [false], the artifacts are cleaned up exactly when it returns
    [true], and the job state is never written. *)
Theorem initiateHumanInTheLoopPrompt_bookkeeping K env jobId w :
  let r := initiateHumanInTheLoopPrompt K env jobId w in
  hilResults (trace (snd r)) = Fail :: hilResults (trace w) ∧
  countEvents (isSleepOf 1000) (trace (snd r))
  = S (countEvents (isSleepOf 1000) (trace w)) ∧
  countEvents isPrompt (trace (snd r))
  = match fst r with Returned false => 1 | _ => 0 end + countEvents isPrompt (trace w) ∧
  countEvents isCleanUpArtifacts (trace (snd r))
  = match fst r with Returned true => 1 | _ => 0 end
    + countEvents isCleanUpArtifacts (trace w) ∧
  transformByQState (snd r) = transformByQState w.
Proof.
  cbn zeta. run; repeat split; reflexivity.
Qed.

(** ** Whole runs *)

Section EndsRules.

Context {A : Type}.

Lemma Ends_bind {B} (P R : World -> Prop) (m : Async A) (k : A -> Async B)
    (Q : Outcome B -> World -> Prop) :
  Ends P m (fun o w => match o with Returned _ => R w | Thrown e => Q (Thrown e) w end) →
  (∀ a, Ends R (k a) Q) →
  Ends P (m ≫= k) Q.
Proof.
  intros Hm Hk w H. specialize (Hm w H).
  unfold mbind, Async_bind. destruct (m w) as [[a|e] w']; cbn [fst snd] in *.
  - now apply Hk.
  - exact Hm.
Qed.

Lemma Ends_tryCatch (P R : World -> Prop) (m : Async A) (h : Error -> Async A)
    (Q : Outcome A -> World -> Prop) :
  Ends P m (fun o w => match o with Returned a => Q (Returned a) w | Thrown _ => R w end) →
  (∀ e, Ends R (h e) Q) →
  Ends P (tryCatch m h) Q.
Proof.
  intros Hm Hh w H. specialize (Hm w H).
  unfold tryCatch. destruct (m w) as [[a|e] w']; cbn [fst snd] in *.
  - exact Hm.
  - now apply Hh.
Qed.

Lemma Ends_Preserves (P : World -> Prop) (m : Async A) (Q : Outcome A -> World -> Prop) :
  Preserves P m → (∀ o w, P w → Q o w) → Ends P m Q.
Proof. intros Hm HQ w H. apply HQ, Hm, H. Qed.

End EndsRules.

(** A run ends the way its stages and the error handler end: the report and
    the cleanup never throw. *)
Lemma startTransformByQ_outcome K env w :
  fst (startTransformByQ K env w)
  = fst (tryCatch (runStages K env) (transformationJobErrorHandler K env)
           (snd (setTransformationToRunningState w))).
Proof.
  unfold startTransformByQ.
  destruct (NeverThrows_inv _ setTransformationToRunningState_returns w) as [[] E1].
  rewrite (bind_returned _ _ _ _ _ E1).
  set (w1 := snd (setTransformationToRunningState w)).
  unfold tryFinally.
  destruct (tryCatch (runStages K env) (transformationJobErrorHandler K env) w1) as [r w2].
  cbn [fst].
  destruct (NeverThrows_inv _ (postTransformationJob_returns K env) w2) as [[] E2].
  rewrite (bind_returned _ _ _ _ _ E2).
  destruct (NeverThrows_inv _ cleanupTransformationJob_returns
              (snd (postTransformationJob K env w2))) as [[] E3].
  now rewrite E3.
Qed.


(** *** The report of a run *)

(** What the report of [postTransformationJob] says about the status it
    finds. *)
Lemma postTransformationJob_report K env w :
  let w' := snd (postTransformationJob K env w) in
  let s := status (transformByQState w) in
  reportedResults (trace w') = (if isSuccess s then Pass else Fail) :: reportedResults (trace w) ∧
  countEvents isStartReview (trace w')
  = (if isSuccess s then 1 else 0) + countEvents isStartReview (trace w) ∧
  length (finishedMessages (trace w')) = S (length (finishedMessages (trace w))).
Proof.
  cbn zeta. unfold postTransformationJob.
  erewrite bind_returned by reflexivity.
  do 4 (erewrite bind_returned by apply failUnlessSucceeded_eq).
  unfold isSuccess. run;
    repeat match goal with
           | H : bool_decide (status _ = _) = _, Hs : status _ = _ |- _ =>
               rewrite Hs in H; try discriminate H; clear H
           end;
    repeat split; reflexivity.
Qed.

Lemma cleanupTransformationJob_keeps_report a b c d :
  Preserves (fun w => reportedStatuses (trace w) = a ∧ reportedResults (trace w) = b ∧
                      countEvents isStartReview (trace w) = c ∧
                      finishedMessages (trace w) = d)
    cleanupTransformationJob.
Proof. preserves_with ltac:(leaf_by assumption). Qed.

Lemma setTransformationToRunningState_keeps_report a b c d :
  Preserves (fun w => reportedStatuses (trace w) = a ∧ reportedResults (trace w) = b ∧
                      countEvents isStartReview (trace w) = c ∧
                      finishedMessages (trace w) = d)
    setTransformationToRunningState.
Proof. preserves_with ltac:(leaf_by assumption). Qed.

(** The stages and the error handler report nothing, and leave a status a
    run can be reported with. *)
Lemma stages_keep_report K env a b c d :
  Preserves (fun w => (reportedStatuses (trace w) = a ∧ reportedResults (trace w) = b ∧
                       countEvents isStartReview (trace w) = c ∧
                       finishedMessages (trace w) = d) ∧
                      isReportable (status (transformByQState w)) = true)
    (tryCatch (runStages K env) (transformationJobErrorHandler K env)).
Proof.
  preserves_with ltac:(leaf_by ltac:(first [assumption | split; [apply H | reflexivity]])).
Qed.

(** The status a run is reported with is the one its stages and the error
    handler leave behind; they report nothing themselves. *)
Lemma stages_report K env w :
  let w2 := snd (tryCatch (runStages K env) (transformationJobErrorHandler K env)
                   (snd (setTransformationToRunningState w))) in
  (reportedStatuses (trace w2) = reportedStatuses (trace w) ∧
   reportedResults (trace w2) = reportedResults (trace w) ∧
   countEvents isStartReview (trace w2) = countEvents isStartReview (trace w) ∧
   finishedMessages (trace w2) = finishedMessages (trace w)) ∧
  isReportable (status (transformByQState w2)) = true.
Proof.
  cbn zeta.
  pose proof (setTransformationToRunningState_keeps_report _ _ _ _ w
                (conj eq_refl (conj eq_refl (conj eq_refl eq_refl)))) as H1.
  assert (H1' : isReportable
                  (status (transformByQState (snd (setTransformationToRunningState w))))
                = true) by reflexivity.
  exact (stages_keep_report K env _ _ _ _ _ (conj H1 H1')).
Qed.

(** X10 — every run is reported exactly once, however it ends: one
    [codeTransform_totalRunTime] event, whose status is never NOT_STARTED or
    PAUSED and whose result is Pass exactly for SUCCEEDED and
    PARTIALLY_SUCCEEDED; one [transformationFinished] chat message; and the
    review of the changes is started exactly when the result is Pass. *)
Theorem run_is_reported_once K env w :
  let w' := snd (startTransformByQ K env w) in
  ∃ s,
    isReportable s = true ∧
    reportedStatuses (trace w') = s :: reportedStatuses (trace w) ∧
    reportedResults (trace w')
    = (if isSuccess s then Pass else Fail) :: reportedResults (trace w) ∧
    countEvents isStartReview (trace w')
    = (if isSuccess s then 1 else 0) + countEvents isStartReview (trace w) ∧
    length (finishedMessages (trace w')) = S (length (finishedMessages (trace w))).
Proof.
  cbn zeta. rewrite startTransformByQ_shape.
  destruct (stages_report K env w) as [(Ha & Hb & Hc & Hd) H2'].
  set (w2 := snd (tryCatch _ _ _)) in *. clearbody w2.
  destruct (postTransformationJob_report K env w2) as (R1 & R2 & R3).
  pose proof (postTransformationJob_reports K env w2) as R0.
  set (w3 := snd (postTransformationJob K env w2)) in *. clearbody w3.
  destruct (cleanupTransformationJob_keeps_report _ _ _ _ w3
              (conj eq_refl (conj eq_refl (conj eq_refl eq_refl)))) as (C0 & C1 & C2 & C3).
  exists (status (transformByQState w2)).
  rewrite C0, C1, C2, C3, R0, R1, R2, R3, Ha, Hb, Hc, Hd.
  repeat split. assumption.
Qed.

(** *** The last plan step *)

Ltac solve_lookup :=
  repeat first [ rewrite lookup_insert_eq | rewrite lookup_insert_ne by discriminate ];
  first [ assumption | reflexivity | discriminate ].

Ltac pending_leaf :=
  first
    [ unfold_call
    | let w := fresh "w" in let H := fresh "H" in
      let Hs := fresh "Hs" in let Hp := fresh "Hp" in
      intros w H; destruct H as [Hs Hp]; unfold transformCodePending;
      exec; repeat (split_stuck; exec);
      split; [first [assumption | reflexivity] | solve_lookup] ].

Lemma stages_before_completion_keep_pending K env :
  Preserves transformCodePending startInterval ∧
  Preserves transformCodePending (preTransformationUploadCode K env) ∧
  (∀ uploadId, Preserves transformCodePending (startTransformationJob K env uploadId)) ∧
  (∀ jobId,
     Preserves transformCodePending (pollTransformationStatusUntilPlanReady K env jobId)) ∧
  (∀ error, Preserves transformCodePending (transformationJobErrorHandler K env error)).
Proof.
  split; [| split; [| split; [| split]]]; intros; preserves_with pending_leaf.
Qed.

Lemma finalizeTransformByQ_settles K env status :
  Ends transformCodePending (finalizeTransformByQ K env status)
    (fun o w => match o with
                | Returned _ => transformCodeSettled w ∨ transformCodePending w
                | Thrown _ => transformCodePending w
                end).
Proof.
  unfold transformCodePending, transformCodeSettled. intros w [Hs Hp].
  run;
    first [ left; split; [reflexivity | solve_lookup]
          | right; split; [first [assumption | reflexivity] | solve_lookup]
          | split; [first [assumption | reflexivity] | solve_lookup] ].
Qed.

Lemma finalizeTransformByQ_failed_keeps_pending K env :
  Preserves transformCodePending (finalizeTransformByQ K env "FAILED").
Proof.
  unfold transformCodePending. intros w [Hs Hp].
  run; split; first [assumption | reflexivity | solve_lookup].
Qed.

(** [humanInTheLoopRetryLogic] returns with the job finalized as successful
    and the step marked, or leaves both unsettled. *)
Lemma humanInTheLoopRetryLogic_settles K env jobId :
  Ends transformCodePending (humanInTheLoopRetryLogic K env jobId)
    (fun o w => match o with
                | Returned _ => transformCodeSettled w ∨ transformCodePending w
                | Thrown _ => transformCodePending w
                end).
Proof.
  unfold humanInTheLoopRetryLogic.
  apply Ends_tryCatch with (R := transformCodePending).
  - apply Ends_bind with (R := transformCodePending).
    + apply Ends_Preserves; [preserves_with pending_leaf | intros [] ? ?; assumption].
    + intros st. destruct (bool_decide (st = "PAUSED")).
      * apply Ends_Preserves;
          [preserves_with pending_leaf | intros [] ? ?; [right |]; assumption].
      * intros w H. pose proof (finalizeTransformByQ_settles K env st w H) as F.
        destruct (fst (finalizeTransformByQ K env st w)); exact F.
  - intros e. apply Ends_Preserves.
    + preserves_with ltac:(first [ apply finalizeTransformByQ_failed_keeps_pending
                                 | pending_leaf ]).
    + intros [] ? ?; [right |]; assumption.
Qed.

(** The stages return with the job settled or unsettled, and throw with the
    job unsettled; the error handler keeps it unsettled. *)
Lemma stages_settle K env w :
  transformCodePending w →
  let w2 := snd (tryCatch (runStages K env) (transformationJobErrorHandler K env) w) in
  transformCodeSettled w2 ∨ transformCodePending w2.
Proof.
  destruct (stages_before_completion_keep_pending K env) as (P1 & P2 & P3 & P4 & P5).
  revert w.
  change (Ends transformCodePending
            (tryCatch (runStages K env) (transformationJobErrorHandler K env))
            (fun _ w2 => transformCodeSettled w2 ∨ transformCodePending w2)).
  apply Ends_tryCatch with (R := transformCodePending).
  - unfold runStages.
    apply Ends_bind with (R := transformCodePending);
      [apply Ends_Preserves; [exact P1 | intros [] ? ?; assumption] | intros _].
    apply Ends_bind with (R := transformCodePending);
      [apply Ends_Preserves; [exact P2 | intros [] ? ?; assumption] | intros uploadId].
    apply Ends_bind with (R := transformCodePending);
      [apply Ends_Preserves; [apply P3 | intros [] ? ?; assumption] | intros jobId].
    apply Ends_bind with (R := transformCodePending);
      [apply Ends_Preserves; [apply P4 | intros [] ? ?; assumption] | intros _].
    apply humanInTheLoopRetryLogic_settles.
  - intros e. apply Ends_Preserves; [apply P5 | intros; right; assumption].
Qed.

(** X11 — at the end of every run the plan step [transformCode] agrees with
    the report: it is marked succeeded when the run is reported SUCCEEDED or
    PARTIALLY_SUCCEEDED, and failed when it is reported with any other
    status. *)
Theorem transformCode_step_agrees_with_report K env w :
  let w' := snd (startTransformByQ K env w) in
  ∃ s,
    reportedStatuses (trace w') = s :: reportedStatuses (trace w) ∧
    jobPlanProgress w' !! "transformCode"
    = Some (if isSuccess s then StepProgress.Succeeded else StepProgress.Failed).
Proof.
  cbn zeta.
  destruct (stages_report K env w) as [(Ha & _) _].
  assert (H1 : transformCodePending (snd (setTransformationToRunningState w))).
  { split; [reflexivity |]. run. solve_lookup. }
  pose proof (stages_settle K env _ H1) as H2. cbn zeta in H2.
  rewrite startTransformByQ_reports. rewrite startTransformByQ_shape.
  set (w2 := snd (tryCatch _ _ _)) in *. clearbody w2.
  exists (status (transformByQState w2)). split; [now rewrite Ha |].
  rewrite cleanupTransformationJob_progress.
  rewrite (postTransformationJob_steps K env w2 "transformCode")
    by (unfold planSteps; repeat constructor).
  destruct H2 as [[Hs Hp] | [Hs Hp]]; rewrite Hs.
  - now rewrite bool_decide_eq_true_2.
  - now rewrite bool_decide_eq_false_2.
Qed.

(** *** The payload *)

Lemma preTransformationUploadCode_records_payload K env payload c :
  zipCodeResponse env = Resolved payload →
  Ends (fun w => status (transformByQState w) = RUNNING ∧
                 countEvents (isRmSyncOf payload) (trace w) = c)
    (preTransformationUploadCode K env)
    (fun _ w => payloadFilePath (transformByQState w) = payload ∧
                countEvents (isRmSyncOf payload) (trace w) = c).
Proof.
  intros Hz w [Hs Hc]. unfold preTransformationUploadCode, throwIfCancelled.
  exec. rewrite Hs. run; split; first [reflexivity | assumption].
Qed.

Lemma stages_keep_payload K env payload c :
  zipCodeResponse env = Resolved payload →
  Ends (fun w => status (transformByQState w) = RUNNING ∧
                 countEvents (isRmSyncOf payload) (trace w) = c)
    (tryCatch (runStages K env) (transformationJobErrorHandler K env))
    (fun _ w => payloadFilePath (transformByQState w) = payload ∧
                countEvents (isRmSyncOf payload) (trace w) = c).
Proof.
  intros Hz.
  apply Ends_tryCatch
    with (R := fun w => payloadFilePath (transformByQState w) = payload ∧
                        countEvents (isRmSyncOf payload) (trace w) = c).
  - unfold runStages.
    apply Ends_bind
      with (R := fun w => status (transformByQState w) = RUNNING ∧
                          countEvents (isRmSyncOf payload) (trace w) = c).
    { intros w H. exact H. }
    intros _.
    apply Ends_bind
      with (R := fun w => payloadFilePath (transformByQState w) = payload ∧
                          countEvents (isRmSyncOf payload) (trace w) = c).
    { intros w H.
      pose proof (preTransformationUploadCode_records_payload K env payload c Hz w H) as F.
      destruct (fst (preTransformationUploadCode K env w)); exact F. }
    intros uploadId.
    apply Ends_Preserves;
      [preserves_with ltac:(leaf_by assumption) | intros [] ? ?; assumption].
  - intros e. apply Ends_Preserves;
      [preserves_with ltac:(leaf_by assumption) | intros; assumption].
Qed.

Lemma postTransformationJob_removes_payload K env w :
  payloadFilePath (transformByQState w) ≠ "" →
  let payload := payloadFilePath (transformByQState w) in
  countEvents (isRmSyncOf payload) (trace w)
  < countEvents (isRmSyncOf payload) (trace (snd (postTransformationJob K env w))).
Proof.
  intros Hne. cbn zeta. unfold postTransformationJob.
  erewrite bind_returned by reflexivity.
  do 4 (erewrite bind_returned by apply failUnlessSucceeded_eq).
  run; reflect_tests; first [contradiction | lia].
Qed.

Lemma cleanupTransformationJob_keeps_removals path c :
  Preserves (fun w => countEvents (isRmSyncOf path) (trace w) = c) cleanupTransformationJob.
Proof. preserves_with ltac:(leaf_by assumption). Qed.

(** X12 — whenever the project has been packaged, the payload file is
    removed before the run ends, whatever happens after the packaging:
    upload failure, start failure, cancellation, poll failure or success. *)
Theorem payload_is_removed_at_end_of_run K env w payload :
  zipCodeResponse env = Resolved payload →
  payload ≠ "" →
  let w' := snd (startTransformByQ K env w) in
  countEvents (isRmSyncOf payload) (trace w)
  < countEvents (isRmSyncOf payload) (trace w').
Proof.
  intros Hz Hne. cbn zeta. rewrite startTransformByQ_shape.
  assert (H1 : status (transformByQState (snd (setTransformationToRunningState w))) = RUNNING ∧
               countEvents (isRmSyncOf payload)
                 (trace (snd (setTransformationToRunningState w)))
               = countEvents (isRmSyncOf payload) (trace w))
    by (split; reflexivity).
  destruct (stages_keep_payload K env payload _ Hz _ H1) as [Hp Hc].
  set (w2 := snd (tryCatch _ _ _)) in *. clearbody w2.
  subst payload.
  pose proof (postTransformationJob_removes_payload K env w2 Hne) as R. cbn zeta in R.
  rewrite Hc in R.
  pose proof (cleanupTransformationJob_keeps_removals
                (payloadFilePath (transformByQState w2)) _
                (snd (postTransformationJob K env w2)) eq_refl) as Q.
  rewrite Q. exact R.
Qed.

Lemma payload_is_removed_at_end_of_run_witness :
  0 < countEvents (isRmSyncOf "payload.zip")
        (trace (snd (startTransformByQ Sample.constants Sample.uploadRejected
                       (Sample.idleWorld LANGUAGE_UPGRADE)))).
Proof.
  apply (payload_is_removed_at_end_of_run Sample.constants Sample.uploadRejected
           (Sample.idleWorld LANGUAGE_UPGRADE) "payload.zip").
  - reflexivity.
  - discriminate.
Defined.

(** *** Cancellation during the plan poll *)

(** The plan poll during which the operator stops the job. *)
Lemma pollTransformationStatusUntilPlanReady_stopped K env jobId w polledStatus :
  status (transformByQState w) = RUNNING →
  operatorStops env
    (Polling validStatesForPlanGenerated
       (countEvents (isPoll validStatesForPlanGenerated) (trace w))) = true →
  pollResponse env validStatesForPlanGenerated
    (countEvents (isPoll validStatesForPlanGenerated) (trace w)) = Resolved polledStatus →
  let r := pollTransformationStatusUntilPlanReady K env jobId w in
  let sql := bool_decide (transformationType (transformByQState w) = SQL_CONVERSION) in
  (status (transformByQState (snd r)) = CANCELLED ∧
   countEvents isStopJob (trace (snd r)) = S (countEvents isStopJob (trace w)) ∧
   fst r = (if sql then Returned () else Thrown TransformByQStoppedError) ∧
   jobPlanProgress (snd r) !! "generatePlan"
   = (if sql then jobPlanProgress w !! "generatePlan" else Some StepProgress.Succeeded)) ∧
  completionPolls (snd r) = completionPolls w ∧
  reportedStatuses (trace (snd r)) = reportedStatuses (trace w).
Proof.
  intros Hs Ho Hp. cbn zeta.
  unfold pollTransformationStatusUntilPlanReady, pollTransformationJob, await, suspended,
    stopTransformByQ.
  exec. rewrite Ho. exec. rewrite Hs. exec. rewrite Hp.
  run; repeat split; first [reflexivity | apply lookup_insert_eq].
Qed.

(** X13 — a stop that arrives while the plan poll is in flight. For a
    language upgrade [pollTransformationStatusUntilPlanReady] marks the plan
    step as succeeded and then throws the cancellation error; for a SQL
    conversion it returns normally and leaves the plan step alone, so the
    cancellation is not noticed here. In both cases the job is CANCELLED and
    one stop request has been sent. *)
Theorem stop_during_plan_poll K env jobId w polledStatus :
  status (transformByQState w) = RUNNING →
  operatorStops env
    (Polling validStatesForPlanGenerated
       (countEvents (isPoll validStatesForPlanGenerated) (trace w))) = true →
  pollResponse env validStatesForPlanGenerated
    (countEvents (isPoll validStatesForPlanGenerated) (trace w)) = Resolved polledStatus →
  let r := pollTransformationStatusUntilPlanReady K env jobId w in
  let sql := bool_decide (transformationType (transformByQState w) = SQL_CONVERSION) in
  status (transformByQState (snd r)) = CANCELLED ∧
  countEvents isStopJob (trace (snd r)) = S (countEvents isStopJob (trace w)) ∧
  fst r = (if sql then Returned () else Thrown TransformByQStoppedError) ∧
  jobPlanProgress (snd r) !! "generatePlan"
  = (if sql then jobPlanProgress w !! "generatePlan" else Some StepProgress.Succeeded).
Proof.
  intros Hs Ho Hp.
  exact (proj1 (pollTransformationStatusUntilPlanReady_stopped K env jobId w polledStatus
                  Hs Ho Hp)).
Qed.

Lemma stop_during_plan_poll_witness :
  fst (pollTransformationStatusUntilPlanReady Sample.constants Scenario.stopDuringPlanPoll
         "J1" (Sample.midRun RUNNING))
  = Thrown TransformByQStoppedError.
Proof.
  apply (stop_during_plan_poll Sample.constants Scenario.stopDuringPlanPoll "J1"
           (Sample.midRun RUNNING) "PLANNED"); reflexivity.
Defined.

Lemma bind_returned_fst {A B} (m : Async A) (k : A -> Async B) w a :
  fst (m w) = Returned a → (m ≫= k) w = k a (snd (m w)).
Proof. intros H. apply bind_returned. destruct (m w); cbn in *; now subst. Qed.

Lemma bind_thrown_fst {A B} (m : Async A) (k : A -> Async B) w e :
  fst (m w) = Thrown e → (m ≫= k) w = (Thrown e, snd (m w)).
Proof. intros H. apply bind_thrown. destruct (m w); cbn in *; now subst. Qed.

(** [humanInTheLoopRetryLogic] polls for completion exactly once. *)
Lemma humanInTheLoopRetryLogic_polls_once K env jobId w :
  completionPolls (snd (humanInTheLoopRetryLogic K env jobId w)) = S (completionPolls w).
Proof.
  revert w.
  enough (H : ∀ c, Ends (fun w => completionPolls w = c)
                     (humanInTheLoopRetryLogic K env jobId)
                     (fun _ w => completionPolls w = S c))
    by (intros w; exact (H _ w eq_refl)).
  intros c. unfold humanInTheLoopRetryLogic, completionPolls.
  apply Ends_tryCatch
    with (R := fun w => countEvents (isPoll validStatesForCheckingDownloadUrl) (trace w) = S c).
  - apply Ends_bind
      with (R := fun w => countEvents (isPoll validStatesForCheckingDownloadUrl) (trace w)
                          = S c).
    + intros w H. run; cbn [Nat.add]; now f_equal.
    + intros st. apply Ends_Preserves;
        [preserves_with ltac:(leaf_by assumption) | intros [] ? ?; assumption].
  - intros e. apply Ends_Preserves;
      [preserves_with ltac:(leaf_by assumption) | intros; assumption].
Qed.

(** What the stages before the completion poll leave alone. *)
Lemma stages_before_completion_keep_polls K env c n l t :
  let I := fun w => completionPolls w = c ∧
                    countEvents (isPoll validStatesForPlanGenerated) (trace w) = n ∧
                    reportedStatuses (trace w) = l ∧
                    transformationType (transformByQState w) = t in
  Preserves I (preTransformationUploadCode K env) ∧
  (∀ uploadId, Preserves I (startTransformationJob K env uploadId)) ∧
  (∀ jobId, Preserves (fun w => completionPolls w = c ∧ reportedStatuses (trace w) = l)
              (pollTransformationStatusUntilPlanReady K env jobId)) ∧
  (∀ error, Preserves (fun w => completionPolls w = c ∧ reportedStatuses (trace w) = l)
              (transformationJobErrorHandler K env error)).
Proof.
  cbn zeta. unfold completionPolls.
  split; [| split; [| split]]; intros; preserves_with ltac:(leaf_by assumption).
Qed.

Section UndisturbedSubmission.

Variables (K : Constants) (env : Env) (payload uploadId jobId : string).
Hypothesis Hz : zipCodeResponse env = Resolved payload.
Hypothesis Hu : uploadPayloadResponse env = Resolved uploadId.
Hypothesis Hj : startJobResponse env = Resolved jobId.
Hypothesis S1 : operatorStops env ZippingCode = false.
Hypothesis S2 : operatorStops env UploadingPayload = false.
Hypothesis S3 : operatorStops env UploadCooldown = false.
Hypothesis S4 : operatorStops env StartingJob = false.
Hypothesis S5 : operatorStops env StartCooldown = false.

Lemma preTransformationUploadCode_undisturbed w :
  status (transformByQState w) = RUNNING →
  let r := preTransformationUploadCode K env w in
  fst r = Returned uploadId ∧
  status (transformByQState (snd r)) = RUNNING ∧
  countEvents isStopJob (trace (snd r)) = countEvents isStopJob (trace w) ∧
  countEvents isShowErrorMessage (trace (snd r)) = countEvents isShowErrorMessage (trace w).
Proof.
  intros Hs. cbn zeta.
  assert (Eb : bool_decide (status (transformByQState w) = CANCELLED) = false)
    by now rewrite Hs.
  run; repeat split; first [reflexivity | assumption].
Qed.

Lemma startTransformationJob_undisturbed w :
  status (transformByQState w) = RUNNING →
  let r := startTransformationJob K env uploadId w in
  fst r = Returned jobId ∧
  status (transformByQState (snd r)) = RUNNING ∧
  countEvents isStopJob (trace (snd r)) = countEvents isStopJob (trace w) ∧
  countEvents isShowErrorMessage (trace (snd r)) = countEvents isShowErrorMessage (trace w).
Proof.
  intros Hs. cbn zeta.
  assert (Eb : bool_decide (status (transformByQState w) = CANCELLED) = false)
    by now rewrite Hs.
  run; repeat split; first [reflexivity | assumption].
Qed.

End UndisturbedSubmission.



(** *** A rejected completion poll *)

Lemma pollTransformationStatusUntilPlanReady_undisturbed K env jobId w polledStatus :
  status (transformByQState w) = RUNNING →
  operatorStops env
    (Polling validStatesForPlanGenerated
       (countEvents (isPoll validStatesForPlanGenerated) (trace w))) = false →
  pollResponse env validStatesForPlanGenerated
    (countEvents (isPoll validStatesForPlanGenerated) (trace w)) = Resolved polledStatus →
  let r := pollTransformationStatusUntilPlanReady K env jobId w in
  fst r = Returned () ∧
  status (transformByQState (snd r)) = RUNNING ∧
  countEvents isStopJob (trace (snd r)) = countEvents isStopJob (trace w) ∧
  countEvents isShowErrorMessage (trace (snd r)) = countEvents isShowErrorMessage (trace w).
Proof.
  intros Hs Ho Hp. cbn zeta.
  assert (Eb : bool_decide (status (transformByQState w) = CANCELLED) = false)
    by now rewrite Hs.
  run; repeat split; first [reflexivity | assumption].
Qed.

(** The handler on a job that is not cancelled, when the stop request is
    answered. *)
Lemma transformationJobErrorHandler_fails_job K env error w :
  status (transformByQState w) ≠ CANCELLED →
  stopJobResponse env (countEvents isStopJob (trace w)) = Resolved () →
  let r := transformationJobErrorHandler K env error w in
  fst r = Returned () ∧
  status (transformByQState (snd r)) = FAILED ∧
  countEvents isStopJob (trace (snd r)) = S (countEvents isStopJob (trace w)) ∧
  countEvents isShowErrorMessage (trace (snd r))
  = S (countEvents isShowErrorMessage (trace w)) ∧
  completionPolls (snd r) = completionPolls w ∧
  reportedStatuses (trace (snd r)) = reportedStatuses (trace w).
Proof.
  intros Hs Hr. cbn zeta.
  assert (Eb : bool_decide (status (transformByQState w) = CANCELLED) = false)
    by now apply bool_decide_eq_false_2.
  run; repeat split; reflexivity.
Qed.

(** [humanInTheLoopRetryLogic] when the completion poll is rejected: the
    failure is finalized, which runs the error handler, and the poll error
    is thrown on. *)
Lemma humanInTheLoopRetryLogic_rejected K env jobId w message :
  status (transformByQState w) = RUNNING →
  operatorStops env (Polling validStatesForCheckingDownloadUrl (completionPolls w)) = false →
  pollResponse env validStatesForCheckingDownloadUrl (completionPolls w) = Rejected message →
  stopJobResponse env (countEvents isStopJob (trace w)) = Resolved () →
  let r := humanInTheLoopRetryLogic K env jobId w in
  fst r = Thrown PollJobError ∧
  status (transformByQState (snd r)) = FAILED ∧
  countEvents isStopJob (trace (snd r)) = S (countEvents isStopJob (trace w)) ∧
  countEvents isShowErrorMessage (trace (snd r))
  = S (countEvents isShowErrorMessage (trace w)) ∧
  completionPolls (snd r) = S (completionPolls w) ∧
  reportedStatuses (trace (snd r)) = reportedStatuses (trace w).
Proof.
  intros Hs Ho Hp Hr. cbn zeta. unfold completionPolls in *.
  assert (Eb : bool_decide (status (transformByQState w) = CANCELLED) = false)
    by now rewrite Hs.
  run; repeat split; reflexivity.
Qed.

(** X15 — a rejected completion poll is handled twice. When packaging,
    upload, start and the plan poll have gone through undisturbed and the
    completion poll is rejected, [humanInTheLoopRetryLogic] finalizes the
    failure, which runs the error handler, and rethrows; the handler of
    [startTransformByQ] then runs again. With the stop requests answered,
    the remote job receives two stop requests, the operator sees two error
    notifications, and the run is reported FAILED. *)
Theorem rejected_completion_poll_is_handled_twice
    K env w payload uploadId jobId polledStatus message :
  zipCodeResponse env = Resolved payload →
  uploadPayloadResponse env = Resolved uploadId →
  startJobResponse env = Resolved jobId →
  operatorStops env ZippingCode = false →
  operatorStops env UploadingPayload = false →
  operatorStops env UploadCooldown = false →
  operatorStops env StartingJob = false →
  operatorStops env StartCooldown = false →
  operatorStops env
    (Polling validStatesForPlanGenerated
       (countEvents (isPoll validStatesForPlanGenerated) (trace w))) = false →
  pollResponse env validStatesForPlanGenerated
    (countEvents (isPoll validStatesForPlanGenerated) (trace w)) = Resolved polledStatus →
  operatorStops env (Polling validStatesForCheckingDownloadUrl (completionPolls w)) = false →
  pollResponse env validStatesForCheckingDownloadUrl (completionPolls w) = Rejected message →
  stopJobResponse env (countEvents isStopJob (trace w)) = Resolved () →
  stopJobResponse env (S (countEvents isStopJob (trace w))) = Resolved () →
  let w' := snd (startTransformByQ K env w) in
  fst (startTransformByQ K env w) = Returned () ∧
  countEvents isStopJob (trace w') = 2 + countEvents isStopJob (trace w) ∧
  countEvents isShowErrorMessage (trace w') = 2 + countEvents isShowErrorMessage (trace w) ∧
  reportedStatuses (trace w') = FAILED :: reportedStatuses (trace w).
Proof.
  intros Hz Hu Hj S1 S2 S3 S4 S5 S6 Hp S7 Hc R1 R2. cbn zeta.
  rewrite startTransformByQ_outcome, startTransformByQ_reports, startTransformByQ_shape.
  set (w2 := tryCatch _ _ _).
  assert (H2 : fst w2 = Returned () ∧
               status (transformByQState (snd w2)) = FAILED ∧
               countEvents isStopJob (trace (snd w2)) = 2 + countEvents isStopJob (trace w) ∧
               countEvents isShowErrorMessage (trace (snd w2))
               = 2 + countEvents isShowErrorMessage (trace w) ∧
               reportedStatuses (trace (snd w2)) = reportedStatuses (trace w)).
  { subst w2.
    destruct (stages_before_completion_keep_polls K env (completionPolls w)
                (countEvents (isPoll validStatesForPlanGenerated) (trace w))
                (reportedStatuses (trace w)) (transformationType (transformByQState w)))
      as (P1 & P2 & P3 & _).
    set (I := fun w0 => completionPolls w0 = completionPolls w ∧ _) in *.
    set (w1 := snd (setTransformationToRunningState w)).
    assert (I1 : I w1) by (repeat split; reflexivity).
    assert (T1 : status (transformByQState w1) = RUNNING ∧
                 countEvents isStopJob (trace w1) = countEvents isStopJob (trace w) ∧
                 countEvents isShowErrorMessage (trace w1)
                 = countEvents isShowErrorMessage (trace w))
      by (repeat split; reflexivity).
    unfold tryCatch, runStages.
    rewrite (bind_returned_fst startInterval _ w1 ()) by reflexivity.
    set (wa := snd (startInterval w1)).
    assert (Ia : I wa) by exact I1.
    assert (Ta : status (transformByQState wa) = RUNNING ∧
                 countEvents isStopJob (trace wa) = countEvents isStopJob (trace w) ∧
                 countEvents isShowErrorMessage (trace wa)
                 = countEvents isShowErrorMessage (trace w)) by exact T1.
    clearbody wa. clear I1 T1. clearbody w1. destruct Ta as (Ra & Na & Ma).
    destruct (preTransformationUploadCode_undisturbed K env payload uploadId
                Hz Hu S1 S2 S3 wa Ra) as (Fb & Rb & Nb & Mb).
    cbn zeta in *. rewrite (bind_returned_fst _ _ wa uploadId Fb).
    pose proof (P1 wa Ia) as Ib.
    set (wb := snd (preTransformationUploadCode K env wa)) in *. clearbody wb.
    destruct (startTransformationJob_undisturbed K env uploadId jobId
                Hj S4 S5 wb Rb) as (Fc & Rc & Nc & Mc).
    cbn zeta in *. rewrite (bind_returned_fst _ _ wb jobId Fc).
    pose proof (P2 uploadId wb Ib) as Ic.
    set (wc := snd (startTransformationJob K env uploadId wb)) in *. clearbody wc.
    destruct Ic as (Ic1 & Ic2 & Ic3 & Ic4).
    pose proof (P3 jobId wc (conj Ic1 Ic3)) as Id.
    rewrite <- Ic2 in S6, Hp.
    destruct (pollTransformationStatusUntilPlanReady_undisturbed K env jobId wc polledStatus
                Rc S6 Hp) as (Fd & Rd & Nd & Md).
    cbn zeta in *. rewrite (bind_returned_fst _ _ wc () Fd).
    set (wd := snd (pollTransformationStatusUntilPlanReady K env jobId wc)) in *.
    clearbody wd.
    destruct Id as (Id1 & Id3).
    rewrite <- Id1 in S7, Hc.
    assert (Nd' : countEvents isStopJob (trace wd) = countEvents isStopJob (trace w))
      by congruence.
    rewrite <- Nd' in R1, R2.
    destruct (humanInTheLoopRetryLogic_rejected K env jobId wd message Rd S7 Hc R1)
      as (Fe & Re & Ne & Me & _ & Le).
    cbn zeta in *.
    destruct (humanInTheLoopRetryLogic K env jobId wd) as [oe we]; cbn [fst snd] in *.
    subst oe.
    assert (Re' : status (transformByQState we) ≠ CANCELLED) by (rewrite Re; discriminate).
    rewrite <- Ne in R2.
    destruct (transformationJobErrorHandler_fails_job K env PollJobError we Re' R2)
      as (Ff & Rf & Nf & Mf & _ & Lf).
    cbn zeta in *. repeat split; try assumption; try congruence.
    - rewrite Nf, Ne, Nd'. reflexivity.
    - rewrite Mf, Me. cbn. do 2 f_equal. congruence. }
  destruct H2 as (F & St & N & M & L).
  set (w2' := snd w2) in *. clearbody w2'.
  split; [exact F |].
  assert (P : Preserves (fun w0 => countEvents isStopJob (trace w0)
                                   = countEvents isStopJob (trace w2') ∧
                                   countEvents isShowErrorMessage (trace w0)
                                   = countEvents isShowErrorMessage (trace w2'))
                (postTransformationJob K env))
    by preserves_with ltac:(leaf_by assumption).
  assert (Q : Preserves (fun w0 => countEvents isStopJob (trace w0)
                                   = countEvents isStopJob (trace w2') ∧
                                   countEvents isShowErrorMessage (trace w0)
                                   = countEvents isShowErrorMessage (trace w2'))
                cleanupTransformationJob)
    by preserves_with ltac:(leaf_by assumption).
  destruct (Q _ (P w2' (conj eq_refl eq_refl))) as [A B].
  rewrite A, B, N, M, St, L. repeat split; reflexivity.
Qed.

Lemma rejected_completion_poll_is_handled_twice_witness :
  let w' := snd (startTransformByQ Sample.constants Scenario.completionPollRejected
                   (Sample.idleWorld LANGUAGE_UPGRADE)) in
  countEvents isStopJob (trace w') = 2 ∧ countEvents isShowErrorMessage (trace w') = 2 ∧
  reportedStatuses (trace w') = [FAILED].
Proof.
  cbn zeta.
  refine (proj2 (rejected_completion_poll_is_handled_twice Sample.constants
                   Scenario.completionPollRejected (Sample.idleWorld LANGUAGE_UPGRADE)
                   "payload.zip" "U1" "J1" "PLANNED" "timed out"
                   _ _ _ _ _ _ _ _ _ _ _ _ _ _)); reflexivity.
Defined.

(** ** The form input and the advice to upgrade libraries *)

Lemma postTransformationJob_advises_upgrade K env w :
  sourceJDKVersion (transformByQState w) ≠ targetJDKVersion (transformByQState w) →
  ∃ message,
    finishedMessages (trace (snd (postTransformationJob K env w)))
    = Some (message ++ upgradeLibrariesMessage K) :: finishedMessages (trace w).
Proof.
  intros Hne. unfold postTransformationJob.
  erewrite bind_returned by reflexivity.
  do 4 (erewrite bind_returned by apply failUnlessSucceeded_eq).
  assert (Eb : bool_decide (sourceJDKVersion (transformByQState w)
                            ≠ targetJDKVersion (transformByQState w)) = true)
    by now apply bool_decide_eq_true_2.
  unfold appendTo. run; eexists; reflexivity.
Qed.

Lemma stages_keep_versions K env source target :
  Preserves (fun w => sourceJDKVersion (transformByQState w) = source ∧
                      targetJDKVersion (transformByQState w) = target)
    (tryCatch (runStages K env) (transformationJobErrorHandler K env)).
Proof. preserves_with ltac:(leaf_by assumption). Qed.

(** A run that starts with differing source and target versions ends its
    chat message with the advice to upgrade libraries. *)
Lemma run_advises_upgrade K env w :
  sourceJDKVersion (transformByQState w) ≠ targetJDKVersion (transformByQState w) →
  ∃ message,
    finishedMessages (trace (snd (startTransformByQ K env w)))
    = Some (message ++ upgradeLibrariesMessage K) :: finishedMessages (trace w).
Proof.
  intros Hne. rewrite startTransformByQ_shape.
  destruct (stages_report K env w) as [(_ & _ & _ & Hd) _].
  destruct (stages_keep_versions K env _ _ (snd (setTransformationToRunningState w))
              (conj eq_refl eq_refl)) as [Hs Ht].
  cbn zeta in *.
  set (w2 := snd (tryCatch _ _ _)) in *. clearbody w2.
  assert (Hne2 : sourceJDKVersion (transformByQState w2)
                 ≠ targetJDKVersion (transformByQState w2)).
  { rewrite Hs, Ht. exact Hne. }
  destruct (postTransformationJob_advises_upgrade K env w2 Hne2) as [message Hm].
  exists message.
  destruct (cleanupTransformationJob_keeps_report
              (reportedStatuses (trace (snd (postTransformationJob K env w2))))
              (reportedResults (trace (snd (postTransformationJob K env w2))))
              (countEvents isStartReview (trace (snd (postTransformationJob K env w2))))
              (finishedMessages (trace (snd (postTransformationJob K env w2))))
              (snd (postTransformationJob K env w2))
              (conj eq_refl (conj eq_refl (conj eq_refl eq_refl)))) as (_ & _ & _ & C).
  rewrite C, Hm, Hd. reflexivity.
Qed.

(** X16 — what the form input means for the message at the end of the run.
    [processSQLConversionTransformFormInput] stores the placeholder versions
    JDK8 and JDK17, so the chat message that ends any run of a SQL conversion
    carries the advice to upgrade libraries. After
    [processLanguageUpgradeTransformFormInput] the message carries it
    whenever the two versions chosen differ. *)
Theorem form_input_decides_upgrade_advice K env w :
  (∀ pathToProject schema,
     let w0 := snd (processSQLConversionTransformFormInput pathToProject schema w) in
     transformationType (transformByQState w0) = SQL_CONVERSION ∧
     ∃ message,
       finishedMessages (trace (snd (startTransformByQ K env w0)))
       = Some (message ++ upgradeLibrariesMessage K) :: finishedMessages (trace w)) ∧
  (∀ pathToProject fromJDKVersion toJDKVersion,
     fromJDKVersion ≠ toJDKVersion →
     let w0 := snd (processLanguageUpgradeTransformFormInput pathToProject
                      fromJDKVersion toJDKVersion w) in
     transformationType (transformByQState w0) = LANGUAGE_UPGRADE ∧
     ∃ message,
       finishedMessages (trace (snd (startTransformByQ K env w0)))
       = Some (message ++ upgradeLibrariesMessage K) :: finishedMessages (trace w)).
Proof.
  split.
  - intros pathToProject schema. cbn zeta. split; [reflexivity |].
    apply (run_advises_upgrade K env
             (snd (processSQLConversionTransformFormInput pathToProject schema w))).
    discriminate.
  - intros pathToProject fromJDKVersion toJDKVersion Hne. cbn zeta. split; [reflexivity |].
    apply (run_advises_upgrade K env
             (snd (processLanguageUpgradeTransformFormInput pathToProject
                     fromJDKVersion toJDKVersion w))).
    intros E. apply Hne. now injection E.
Qed.

(** *** Cancellation before the polls *)

(** A stop that arrives while the project is packaged is seen by the check
    that follows the upload: the payload is uploaded all the same, no start
    call is issued and the run is reported CANCELLED. *)
Lemma stop_during_packaging_still_uploads K env w payload :
  zipCodeResponse env = Resolved payload →
  operatorStops env ZippingCode = true →
  let w' := snd (startTransformByQ K env w) in
  countEvents isUploadPayload (trace w') = S (countEvents isUploadPayload (trace w)) ∧
  countEvents isStartJob (trace w') = countEvents isStartJob (trace w) ∧
  polls w' = polls w ∧
  reportedStatuses (trace w') = CANCELLED :: reportedStatuses (trace w).
Proof.
  intros Hz Hs. cbn zeta.
  rewrite startTransformByQ_reports. rewrite startTransformByQ_shape.
  set (w2 := snd (tryCatch _ _ _)).
  assert (H2 : (countEvents isUploadPayload (trace w2)
                = S (countEvents isUploadPayload (trace w)) ∧
                countEvents isStartJob (trace w2) = countEvents isStartJob (trace w) ∧
                polls w2 = polls w) ∧
               status (transformByQState w2) = CANCELLED ∧
               reportedStatuses (trace w2) = reportedStatuses (trace w)).
  { subst w2. run; repeat split; reflexivity. }
  clearbody w2. destruct H2 as (A & C & D).
  assert (P : Preserves (fun w0 => countEvents isUploadPayload (trace w0)
                                   = S (countEvents isUploadPayload (trace w)) ∧
                                   countEvents isStartJob (trace w0)
                                   = countEvents isStartJob (trace w) ∧ polls w0 = polls w)
                (postTransformationJob K env))
    by preserves_with ltac:(leaf_by assumption).
  assert (Q : Preserves (fun w0 => countEvents isUploadPayload (trace w0)
                                   = S (countEvents isUploadPayload (trace w)) ∧
                                   countEvents isStartJob (trace w0)
                                   = countEvents isStartJob (trace w) ∧ polls w0 = polls w)
                cleanupTransformationJob)
    by preserves_with ltac:(leaf_by assumption).
  destruct (Q _ (P w2 A)) as (A1 & A2 & A3).
  rewrite C, D. repeat split; assumption.
Qed.

(** X17 — the cancellation checks before the polls. A stop during the
    packaging does not keep the payload from being uploaded, but no job is
    started. A stop during the upload keeps the job from being started. A
    stop during the start call or the cooldown after it keeps the run from
    polling. In each case the run is reported CANCELLED. *)
Theorem stop_before_polling_ends_run_cancelled K env w payload :
  zipCodeResponse env = Resolved payload →
  let w' := snd (startTransformByQ K env w) in
  (operatorStops env ZippingCode = true →
   countEvents isUploadPayload (trace w') = S (countEvents isUploadPayload (trace w)) ∧
   countEvents isStartJob (trace w') = countEvents isStartJob (trace w) ∧
   polls w' = polls w ∧
   reportedStatuses (trace w') = CANCELLED :: reportedStatuses (trace w)) ∧
  (operatorStops env UploadingPayload = true →
   countEvents isStartJob (trace w') = countEvents isStartJob (trace w) ∧
   polls w' = polls w ∧
   reportedStatuses (trace w') = CANCELLED :: reportedStatuses (trace w)) ∧
  (∀ uploadId,
     uploadPayloadResponse env = Resolved uploadId →
     operatorStops env ZippingCode = false →
     operatorStops env UploadingPayload = false →
     operatorStops env UploadCooldown = false →
     operatorStops env StartingJob = true ∨
     (∃ jobId, startJobResponse env = Resolved jobId) ∧
     operatorStops env StartCooldown = true →
     polls w' = polls w ∧
     reportedStatuses (trace w') = CANCELLED :: reportedStatuses (trace w)).
Proof.
  intros Hz. cbn zeta. split; [| split].
  - intros Hs. exact (stop_during_packaging_still_uploads K env w payload Hz Hs).
  - intros Hs. exact (stop_during_upload_skips_start K env w payload Hz Hs).
  - intros uploadId Hu S1 S2 S3 Hs.
    exact (stop_during_submission_skips_polling K env w payload uploadId Hz Hu S1 S2 S3 Hs).
Qed.

Lemma stop_before_polling_ends_run_cancelled_witness :
  let w' := snd (startTransformByQ Sample.constants Scenario.stopDuringPackaging
                   (Sample.idleWorld LANGUAGE_UPGRADE)) in
  countEvents isUploadPayload (trace w') = 1 ∧
  countEvents isStartJob (trace w') = 0 ∧
  polls w' = 0 ∧
  reportedStatuses (trace w') = [CANCELLED].
Proof.
  cbn zeta.
  exact (proj1 (stop_before_polling_ends_run_cancelled Sample.constants
                  Scenario.stopDuringPackaging (Sample.idleWorld LANGUAGE_UPGRADE)
                  "payload.zip" eq_refl) eq_refl).
Defined.

(** *** Failure marks *)

(** X18 — [humanInTheLoopRetryLogic] never throws without having marked the
    failure: whenever it throws, the plan step [transformCode] is marked as
    failed and both failure texts are defined. *)
Theorem humanInTheLoopRetryLogic_throws_after_marking_failure K env jobId w :
  let r := humanInTheLoopRetryLogic K env jobId w in
  match fst r with
  | Returned _ => True
  | Thrown _ =>
      jobPlanProgress (snd r) !! "transformCode" = Some StepProgress.Failed ∧
      jobFailureErrorNotification (transformByQState (snd r)) ≠ None ∧
      jobFailureErrorChatMessage (transformByQState (snd r)) ≠ None
  end.
Proof.
  cbn zeta. revert w.
  enough (H : Ends (fun _ => True) (humanInTheLoopRetryLogic K env jobId)
                (fun o w' =>
                   match o with
                   | Returned _ => True
                   | Thrown _ =>
                       jobPlanProgress w' !! "transformCode" = Some StepProgress.Failed ∧
                       jobFailureErrorNotification (transformByQState w') ≠ None ∧
                       jobFailureErrorChatMessage (transformByQState w') ≠ None
                   end))
    by (intros w; exact (H w I)).
  unfold humanInTheLoopRetryLogic.
  apply Ends_tryCatch with (R := fun _ => True).
  - intros w _. destruct (fst _); exact I.
  - intros e w _.
    run; try exact I;
      (split; [solve_lookup | split]);
      first [ discriminate
            | let Hn := fresh "Hn" in
              intros Hn;
              match goal with
              | E : Js.truthy _ = true |- _ => rewrite Hn in E; discriminate E
              end ].
Qed.

Ltac failed_leaf :=
  first
    [ unfold_call
    | let w := fresh "w" in let H := fresh "H" in let Hf := fresh "Hf" in
      intros w H; exec; repeat (split_stuck; exec);
      first [ exact H | intros Hf; first [discriminate Hf | discriminate] ] ].

Lemma transformationJobErrorHandler_defines_failure_message K env error :
  Preserves (fun w => status (transformByQState w) = FAILED →
                      jobFailureErrorChatMessage (transformByQState w) ≠ None)
    (transformationJobErrorHandler K env error).
Proof.
  intros w H. run; first [exact H | intros Hf; first [discriminate Hf | discriminate]].
Qed.

(** Whoever sets FAILED defines the chat message of the failure. *)
Lemma stages_define_failure_message K env :
  Preserves (fun w => status (transformByQState w) = FAILED →
                      jobFailureErrorChatMessage (transformByQState w) ≠ None)
    (tryCatch (runStages K env) (transformationJobErrorHandler K env)).
Proof.
  preserves_with
    ltac:(first [ apply transformationJobErrorHandler_defines_failure_message
                | failed_leaf ]).
Qed.

Lemma postTransformationJob_failed_message K env w :
  status (transformByQState w) = FAILED →
  jobFailureErrorChatMessage (transformByQState w) ≠ None →
  ∃ message,
    finishedMessages (trace (snd (postTransformationJob K env w)))
    = Some message :: finishedMessages (trace w).
Proof.
  intros Hs Hc. unfold postTransformationJob.
  erewrite bind_returned by reflexivity.
  do 4 (erewrite bind_returned by apply failUnlessSucceeded_eq).
  destruct (jobFailureErrorChatMessage (transformByQState w)) as [message |] eqn:Em;
    [clear Hc | congruence].
  assert (E1 : bool_decide (status (transformByQState w) = SUCCEEDED) = false)
    by now rewrite Hs.
  assert (E2 : bool_decide (status (transformByQState w) = PARTIALLY_SUCCEEDED) = false)
    by now rewrite Hs.
  unfold appendTo. run; rewrite ?Em; eexists; reflexivity.
Qed.

(** X19 — a run that is reported FAILED tells the chat a defined message:
    the error handler is the only place that sets FAILED, and it fills in the
    chat message of the failure when none is set. *)
Theorem failed_run_has_a_chat_message K env w :
  let w' := snd (startTransformByQ K env w) in
  reportedStatuses (trace w') = FAILED :: reportedStatuses (trace w) →
  ∃ message, finishedMessages (trace w') = Some message :: finishedMessages (trace w).
Proof.
  cbn zeta. rewrite startTransformByQ_reports, startTransformByQ_shape.
  destruct (stages_report K env w) as [(Ha & _ & _ & Hd) _].
  assert (F1 : status (transformByQState (snd (setTransformationToRunningState w))) = FAILED →
               jobFailureErrorChatMessage
                 (transformByQState (snd (setTransformationToRunningState w))) ≠ None)
    by (intros Hf; discriminate Hf).
  pose proof (stages_define_failure_message K env _ F1) as F2.
  cbn zeta in *.
  set (w2 := snd (tryCatch _ _ _)) in *. clearbody w2.
  rewrite Ha. intros Hr.
  assert (Hs : status (transformByQState w2) = FAILED) by congruence.
  destruct (postTransformationJob_failed_message K env w2 Hs (F2 Hs)) as [message Hm].
  exists message.
  destruct (cleanupTransformationJob_keeps_report
              (reportedStatuses (trace (snd (postTransformationJob K env w2))))
              (reportedResults (trace (snd (postTransformationJob K env w2))))
              (countEvents isStartReview (trace (snd (postTransformationJob K env w2))))
              (finishedMessages (trace (snd (postTransformationJob K env w2))))
              (snd (postTransformationJob K env w2))
              (conj eq_refl (conj eq_refl (conj eq_refl eq_refl)))) as (_ & _ & _ & C).
  rewrite C, Hm, Hd. reflexivity.
Qed.

Lemma failed_run_has_a_chat_message_witness :
  ∃ message,
    finishedMessages
      (trace (snd (startTransformByQ Sample.constants Sample.uploadRejected
                     (Sample.idleWorld LANGUAGE_UPGRADE))))
    = [Some message].
Proof.
  apply (failed_run_has_a_chat_message Sample.constants Sample.uploadRejected
           (Sample.idleWorld LANGUAGE_UPGRADE)).
  reflexivity.
Defined.

(** ** The candidate projects of a SQL conversion *)

Section CandidateSearch.

Import Candidates.

Variable findStringInDirectory : string -> string -> Response SpawnResult.
Variable search : string -> string -> SpawnResult.
Hypothesis searches_resolve : ∀ str dir, findStringInDirectory str dir = Resolved (search str dir).

Lemma searchProject_result project strs resultLog :
  ∃ entries,
    searchProject findStringInDirectory project strs resultLog
    = Returned (existsb (fun str => bool_decide (exitCode (search str (path project)) = 0%Z))
                  strs,
                (resultLog ++ entries)%list) ∧
    (List.length entries ≤ List.length strs)%nat ∧
    (strs ≠ [] → (1 ≤ List.length entries)%nat).
Proof.
  revert resultLog. induction strs as [| str rest IH]; intros resultLog.
  - exists []. cbn. rewrite app_nil_r. repeat split; [lia | congruence].
  - cbn [searchProject existsb]. rewrite searches_resolve.
    destruct (bool_decide (exitCode (search str (path project)) = 0%Z)).
    + exists [logEntry (search str (path project))]. cbn. repeat split; lia.
    + destruct (IH (resultLog ++ [logEntry (search str (path project))])%list)
        as (entries & E & L & _).
      exists (logEntry (search str (path project)) :: entries).
      rewrite E, <- app_assoc. cbn. repeat split; lia.
Qed.

Lemma searchProjects_result javaProjects embeddedSQLProjects resultLog :
  ∃ entries,
    searchProjects findStringInDirectory javaProjects embeddedSQLProjects resultLog
    = Returned ((embeddedSQLProjects ++ List.filter (hasEmbeddedSQL search) javaProjects)%list,
                (resultLog ++ entries)%list) ∧
    (List.length javaProjects ≤ List.length entries ≤ 3 * List.length javaProjects)%nat.
Proof.
  revert embeddedSQLProjects resultLog.
  induction javaProjects as [| project rest IH]; intros embeddedSQLProjects resultLog.
  - exists []. cbn. rewrite !app_nil_r. repeat split; lia.
  - cbn [searchProjects List.filter].
    destruct (searchProject_result project searchStrings resultLog) as (first & E & L1 & L2).
    rewrite E. fold (hasEmbeddedSQL search project).
    specialize (L2 ltac:(discriminate)). cbn [List.length searchStrings] in L1.
    destruct (hasEmbeddedSQL search project).
    + destruct (IH (embeddedSQLProjects ++ [project])%list (resultLog ++ first)%list)
        as (entries & E' & L).
      exists (first ++ entries)%list. rewrite E', <- !app_assoc. cbn [app List.length].
      rewrite length_app. repeat split; lia.
    + destruct (IH embeddedSQLProjects (resultLog ++ first)%list) as (entries & E' & L).
      exists (first ++ entries)%list. rewrite E', <- !app_assoc. cbn [List.length].
      rewrite length_app. repeat split; lia.
Qed.

End CandidateSearch.


